(** * Task polling hook and WebSocket provider wrapper

    A shallow embedding of [frontend/src/hooks/query/use-task-polling.ts]
    (the hook [useTaskPolling] and the component [WebSocketProviderWrapper])
    together with the properties the specification states about them.

    The file is organised as the code is: a small prelude for the JavaScript
    values and string operations the code uses, the parts of React and of the
    query library the hook calls, the hook, the component, and then the
    theorems. *)

From Stdlib Require Import String Ascii List ZArith Lia Bool Arith DecimalString.
Import ListNotations.
Open Scope string_scope.

(* ================================================================= *)
(** ** JavaScript values and string operations *)

Module JS.

(** The fields the code reads are typed [string | null]; optional chaining
    on a missing object yields [undefined]. *)
Inductive value : Type :=
| Undefined
| Null
| Str (s : string).

(** ToBoolean: [undefined], [null] and the empty string are falsy. *)
Definition truthy (v : value) : bool :=
  match v with
  | Str s => negb (s =? "")
  | Undefined | Null => false
  end.

(** [a || b] evaluates to [a] when [a] is truthy and to [b] otherwise. *)
Definition or (a b : value) : value :=
  if truthy a then a else b.

(** [v === s] for a string [s]. *)
Definition strict_eq (v : value) (s : string) : bool :=
  match v with
  | Str s' => s' =? s
  | Undefined | Null => false
  end.

(** [o?.f]: the field of a present object, [undefined] otherwise. *)
Definition chain {A : Type} (o : option A) (f : A -> value) : value :=
  match o with
  | Some a => f a
  | None => Undefined
  end.

(** [o ?? d]. *)
Definition coalesce {A : Type} (o : option A) (d : A) : A :=
  match o with
  | Some a => a
  | None => d
  end.

(** [s.startsWith(p)]. *)
Definition startsWith (s p : string) : bool := prefix p s.

(** [s.indexOf(search)]: the least position at which [search] occurs in
    [s], [None] standing for -1. *)
Fixpoint indexOf (search s : string) {struct s} : option nat :=
  if prefix search s then Some 0
  else match s with
       | EmptyString => None
       | String _ s' => option_map S (indexOf search s')
       end.

(** [s.replace(search, replacement)] with a string pattern: only the first
    occurrence is replaced.  The two replacement texts of the code contain
    no [$], so the replacement is inserted as it is. *)
Definition replace (search replacement s : string) : string :=
  match indexOf search s with
  | None => s
  | Some pos =>
      substring 0 pos s
        ++ replacement
        ++ substring (pos + String.length search)
                     (String.length s - (pos + String.length search)) s
  end.

(** An integer inside a template literal: its decimal numeral.  This is
    what a number that is an integer of magnitude below 2^53 is printed
    as; beyond that a number is printed with the shortest digits that
    identify it, which this definition does not give. *)
Definition show_number (z : Z) : string :=
  NilZero.string_of_int (Z.to_int z).

(** The exceptions the code can raise: the [TypeError] of a method call on
    [undefined] or [null], and [new Error(message)]. *)
Inductive exception : Type :=
| TypeError
| Error (message : string).

(** A value handed over where the code expects a number, types not being
    checked when the code runs: a number that is an integer, or any other
    value (a fraction, NaN, a string, [undefined], an object, ...) with
    what a template literal makes of it, a text or, for a value that
    cannot be converted, the exception of the conversion. *)
Inductive untyped : Type :=
| Int (z : Z)
| Other (text : string + exception).

(** [v === z] for an integer literal [z]. *)
Definition is_number (v : untyped) (z : Z) : bool :=
  match v with
  | Int z' => (z' =? z)%Z
  | Other _ => false
  end.

(** The text of [v] inside a template literal. *)
Definition interpolate (v : untyped) : string + exception :=
  match v with
  | Int z => inl (show_number z)
  | Other text => text
  end.

End JS.

(** An integer stands for the number it is. *)
Bind Scope Z_scope with JS.untyped.
Coercion JS.Int : Z >-> JS.untyped.

(* ================================================================= *)
(** ** React: references and effects *)

Module React.

(** The identity of a function or object, as [Object.is] compares it in a
    dependency array. *)
Definition ref := nat.

Definition same_ref (a b : ref) : bool := Nat.eqb a b.

(** [useEffect(body, deps)]: the body runs after the first render and after
    every render whose dependencies differ from those of the render before.
    [prev] is what the hook slot remembers; the result is the effects
    performed together with the new content of the slot. *)
Definition useEffect {D E : Type} (same : D -> D -> bool)
           (prev : option D) (deps : D) (body : list E)
  : list E * option D :=
  match prev with
  | None => (body, Some deps)
  | Some old => if same old deps then ([], Some deps) else (body, Some deps)
  end.

End React.

(* ================================================================= *)
(** ** The query library: options, results, retries *)

Module Query.

Import React.

Definition error := string.

(** The data of a query: [undefined] before anything was fetched, [null]
    when the query function returned it, or a fetched object. *)
Inductive data (A : Type) : Type :=
| NoData
| NullData
| Obj (at_ : ref) (a : A).
Arguments NoData {A}.
Arguments NullData {A}.
Arguments Obj {A} at_ a.

(** [!d] on query data: objects are truthy. *)
Definition present {A : Type} (d : data A) : option A :=
  match d with
  | Obj _ a => Some a
  | NoData | NullData => None
  end.

(** [Object.is] on query data. *)
Definition same_data {A : Type} (x y : data A) : bool :=
  match x, y with
  | NoData, NoData => true
  | NullData, NullData => true
  | Obj a _, Obj b _ => same_ref a b
  | _, _ => false
  end.

(** One element of a query key. *)
Inductive key_part : Type :=
| KStr (s : string)
| KValue (v : JS.value)
| KArray (l : list JS.value).

Definition query_key := list key_part.

(** What [refetchInterval] returns: [false] or a number of milliseconds. *)
Inductive interval : Type :=
| NoRefetch
| Every (ms : Z).

(** The [retry] option: a boolean or a number of retries. *)
Inductive retry_option : Type :=
| RetryBool (b : bool)
| RetryCount (n : nat).

Inductive settled (A : Type) : Type :=
| Resolved (a : A)
| Rejected (e : error).
Arguments Resolved {A} a.
Arguments Rejected {A} e.

(** The options the hook passes to [useQuery].  The query function is
    given the number of the call, the backend being free to answer each
    call differently. *)
Record options (A : Type) : Type := {
  queryKey : query_key;
  queryFn : nat -> settled (option A);
  enabled : bool;
  refetchInterval : data A -> interval;
  retry : retry_option
}.
Arguments queryKey {A} _.
Arguments queryFn {A} _.
Arguments enabled {A} _.
Arguments refetchInterval {A} _.
Arguments retry {A} _.

(** What [useQuery] hands back, as far as the hook reads it. *)
Record result (A : Type) : Type := {
  r_data : data A;
  r_error : option error;
  r_isLoading : bool
}.
Arguments r_data {A} _.
Arguments r_error {A} _.
Arguments r_isLoading {A} _.

(** The retry rule of the library: after [failureCount] failures another
    attempt is made when [retry] is [true] or a number not yet reached. *)
Definition shouldRetry (r : retry_option) (failureCount : nat) : bool :=
  match r with
  | RetryBool b => b
  | RetryCount n => Nat.ltb failureCount n
  end.

(** One fetch: the query function is called until it resolves or the retry
    rule gives up.  The result is the number of calls made and the outcome;
    [None] when [fuel] calls did not settle the fetch. *)
Fixpoint fetch {A : Type} (fuel : nat) (r : retry_option)
         (fn : nat -> settled A) (failureCount : nat)
  : option (nat * settled A) :=
  match fuel with
  | O => None
  | S fuel' =>
      match fn failureCount with
      | Resolved a => Some (S failureCount, Resolved a)
      | Rejected e =>
          if shouldRetry r failureCount
          then fetch fuel' r fn (S failureCount)
          else Some (S failureCount, Rejected e)
      end
  end.

(** The result an observer shows once the first fetch of a query has
    settled; a disabled query fetches nothing.  [at_] is the reference of
    the object the fetched data is stored as. *)
Definition settle {A : Type} (fuel : nat) (at_ : ref) (o : options A)
  : option (nat * result A) :=
  if enabled o then
    match fetch fuel (retry o) (queryFn o) 0 with
    | None => None
    | Some (calls, Resolved (Some a)) =>
        Some (calls, {| r_data := Obj at_ a; r_error := None;
                        r_isLoading := false |})
    | Some (calls, Resolved None) =>
        Some (calls, {| r_data := NullData; r_error := None;
                        r_isLoading := false |})
    | Some (calls, Rejected e) =>
        Some (calls, {| r_data := NoData; r_error := Some e;
                        r_isLoading := false |})
    end
  else Some (0, {| r_data := NoData; r_error := None;
                   r_isLoading := false |}).

End Query.

(* ================================================================= *)
(** ** The records of the V1 conversation API the code reads and writes *)

Module StartRequest.
Record t : Type := {
  selected_repository : JS.value;
  selected_branch : JS.value;
  git_provider : JS.value
}.
End StartRequest.

Module StartTask.
(** A start task as the poll endpoint returns it.  The status is kept as
    the string of the payload: the code compares it with string literals. *)
Record t : Type := {
  id : string;
  status : string;
  detail : JS.value;
  app_conversation_id : JS.value;
  sandbox_id : JS.value;
  agent_server_url : JS.value;
  request : option StartRequest.t
}.
End StartTask.

Module AppConversation.
(** A sub-conversation, with the fields the code reads or writes. *)
Record t : Type := {
  id : JS.value;
  conversation_url : JS.value;
  session_api_key : JS.value;
  sandbox_id : JS.value
}.
End AppConversation.

Module Conversation.
Record t : Type := {
  url : JS.value;
  session_api_key : JS.value;
  sub_conversation_ids : option (list string)
}.
End Conversation.

(* ================================================================= *)
(** ** The hook [useTaskPolling] *)

Module TaskPolling.

Import React Query.

(** The two side effects of the hook. *)
Inductive effect : Type :=
| SetQueryData (key : query_key) (value : list AppConversation.t)
| Navigate (to : string) (replace : bool).

(** What the hooks called by [useTaskPolling] return during one render. *)
Record env : Type := {
  useConversationId : string;
  useNavigate : ref;
  useQueryClient : ref;
  useQuery : options StartTask.t -> result StartTask.t
}.

(** The dependencies remembered by the two [useEffect] calls. *)
Record slots : Type := {
  precache_slot : option (data StartTask.t * ref);
  navigate_slot : option (data StartTask.t * ref)
}.

Definition unmounted : slots :=
  {| precache_slot := None; navigate_slot := None |}.

Definition same_deps (x y : data StartTask.t * ref) : bool :=
  same_data (fst x) (fst y) && same_ref (snd x) (snd y).

Record RepositoryInfo : Type := {
  selectedRepository : JS.value;
  selectedBranch : JS.value;
  gitProvider : JS.value
}.

(** The object the hook returns. *)
Record returned : Type := {
  isTask : bool;
  taskId : JS.value;
  conversationId : JS.value;
  task : data StartTask.t;
  taskStatus : JS.value;
  taskDetail : JS.value;
  taskError : option error;
  isLoadingTask : bool;
  repositoryInfo : RepositoryInfo
}.

(** [isTask ? conversationId.replace("task-", "") : null] *)
Definition extractTaskId (conversationId : string) : JS.value :=
  if JS.startsWith conversationId "task-"
  then JS.Str (JS.replace "task-" "" conversationId)
  else JS.Null.

(** The [refetchInterval] callback, applied to [query.state.data]. *)
Definition refetchInterval (d : data StartTask.t) : interval :=
  match present d with
  | None => NoRefetch
  | Some task =>
      if (StartTask.status task =? "READY")
         || (StartTask.status task =? "ERROR")
      then NoRefetch
      else Every 3000
  end.

(** The body of the first effect: pre-cache the V1 app conversation. *)
Definition precache (d : data StartTask.t) : list effect :=
  match present d with
  | None => []
  | Some task =>
      if (StartTask.status task =? "READY")
         && JS.truthy (StartTask.app_conversation_id task)
         && JS.truthy (StartTask.agent_server_url task)
      then
        [ SetQueryData
            [ KStr "v1"; KStr "sub-conversations";
              KArray [StartTask.app_conversation_id task] ]
            [ {| AppConversation.id := StartTask.app_conversation_id task;
                 AppConversation.conversation_url :=
                   StartTask.agent_server_url task;
                 AppConversation.session_api_key := JS.Null;
                 AppConversation.sandbox_id := StartTask.sandbox_id task |} ] ]
      else []
  end.

(** The path of the template literal; the identifier is a string whenever
    the guard of the effect lets it through. *)
Definition conversationPath (v : JS.value) : string :=
  match v with
  | JS.Str s => "/conversations/" ++ s
  | JS.Null => "/conversations/null"
  | JS.Undefined => "/conversations/undefined"
  end.

(** The body of the second effect: navigate to the conversation. *)
Definition navigation (d : data StartTask.t) : list effect :=
  match present d with
  | None => []
  | Some task =>
      if (StartTask.status task =? "READY")
         && JS.truthy (StartTask.app_conversation_id task)
      then [ Navigate (conversationPath (StartTask.app_conversation_id task))
                      true ]
      else []
  end.

Section Hook.

(** [V1ConversationService.getStartTask], the poll endpoint: its answer
    to the given call for the given task identifier. *)
Variable getStartTask : string -> nat -> settled StartTask.t.

(** The query function of the task query. *)
Definition taskQueryFn (taskId : JS.value) (call : nat)
  : settled (option StartTask.t) :=
  if negb (JS.truthy taskId) then Resolved None
  else match taskId with
       | JS.Str i =>
           match getStartTask i call with
           | Resolved t => Resolved (Some t)
           | Rejected e => Rejected e
           end
       | JS.Undefined | JS.Null => Resolved None
       end.

(** The options of the task query. *)
Definition taskQueryOptions (taskId : JS.value) : options StartTask.t :=
  {| Query.queryKey := [ KStr "start-task"; KValue taskId ];
     Query.queryFn := taskQueryFn taskId;
     Query.enabled := JS.truthy taskId;
     Query.refetchInterval := refetchInterval;
     Query.retry := RetryBool false |}.

(** [taskQuery.data] in a render: the data of the task query. *)
Definition polled (e : env) : data StartTask.t :=
  r_data (useQuery e (taskQueryOptions
                        (extractTaskId (useConversationId e)))).

(** One render of the hook: the returned object, the dependencies kept
    for the next render, and the effects run after this one, in the
    order in which the hook declares them. *)
Definition useTaskPolling (e : env) (s : slots)
  : returned * slots * list effect :=
  let conversationId := useConversationId e in
  let navigate := useNavigate e in
  let queryClient := useQueryClient e in
  let isTask := JS.startsWith conversationId "task-" in
  let taskId := extractTaskId conversationId in
  let taskQuery := useQuery e (taskQueryOptions taskId) in
  let '(fx1, slot1) :=
    useEffect same_deps (precache_slot s)
              (r_data taskQuery, queryClient)
              (precache (r_data taskQuery)) in
  let '(fx2, slot2) :=
    useEffect same_deps (navigate_slot s)
              (r_data taskQuery, navigate)
              (navigation (r_data taskQuery)) in
  let data := present (r_data taskQuery) in
  let request := match data with
                 | Some t => StartTask.request t
                 | None => None
                 end in
  ( {| isTask := isTask;
       taskId := taskId;
       conversationId := if isTask then JS.Null else JS.Str conversationId;
       task := r_data taskQuery;
       taskStatus := JS.chain data (fun t => JS.Str (StartTask.status t));
       taskDetail := JS.chain data StartTask.detail;
       taskError := r_error taskQuery;
       isLoadingTask := r_isLoading taskQuery;
       repositoryInfo :=
         {| selectedRepository :=
              JS.chain request StartRequest.selected_repository;
            selectedBranch :=
              JS.chain request StartRequest.selected_branch;
            gitProvider := JS.chain request StartRequest.git_provider |} |},
    {| precache_slot := slot1; navigate_slot := slot2 |},
    fx1 ++ fx2 )%list.

(** The object returned by a render, and the effects run after it. *)
Definition returned_by (e : env) (s : slots) : returned :=
  fst (fst (useTaskPolling e s)).

Definition effects_of (e : env) (s : slots) : list effect :=
  snd (useTaskPolling e s).

Definition slots_of (e : env) (s : slots) : slots :=
  snd (fst (useTaskPolling e s)).

(** A sequence of renders of one mounted hook: the effects of each. *)
Fixpoint renders (s : slots) (es : list env) : list (list effect) :=
  match es with
  | [] => []
  | e :: es' =>
      let '(_, s', fx) := useTaskPolling e s in
      fx :: renders s' es'
  end.

End Hook.

Definition isNavigate (x : effect) : bool :=
  match x with
  | Navigate _ _ => true
  | SetQueryData _ _ => false
  end.

Definition isSetQueryData (x : effect) : bool :=
  match x with
  | SetQueryData _ _ => true
  | Navigate _ _ => false
  end.

End TaskPolling.

(* ================================================================= *)
(** ** The component [WebSocketProviderWrapper] *)

Module Transport.

(** What the two data hooks of the component return during a render: the
    active conversation and, for a list of identifiers, the
    sub-conversations ([undefined] while they are not loaded, [null] for a
    sub-conversation that could not be fetched). *)
Record env : Type := {
  useActiveConversation : option Conversation.t;
  useSubConversations :
    list string -> option (list (option AppConversation.t))
}.

(** The props of the V1 provider. *)
Record ConversationWebSocketProviderProps : Type := {
  conversationId : string;
  conversationUrl : string;
  sessionApiKey : JS.value;
  subConversationIds : option (list string);
  subConversations : option (list AppConversation.t)
}.

(** [subConversations?.filter(sc => sc !== null)] *)
Fixpoint dropNull {A : Type} (l : list (option A)) : list A :=
  match l with
  | [] => []
  | Some a :: l' => a :: dropNull l'
  | None :: l' => dropNull l'
  end.

(** [filteredSubConversations?.find(conv => conv.id === conversationId)] *)
Definition findConversation (l : option (list AppConversation.t))
           (conversationId : string) : option AppConversation.t :=
  match l with
  | Some convs =>
      find (fun conv => JS.strict_eq (AppConversation.id conv) conversationId)
           convs
  | None => None
  end.

(** [conversation?.sub_conversation_ids] *)
Definition subIds (e : env) : option (list string) :=
  match useActiveConversation e with
  | Some c => Conversation.sub_conversation_ids c
  | None => None
  end.

(** The sub-conversations fetched for [conversation?.sub_conversation_ids
    ?? []], without the null ones. *)
Definition filteredSubConversations (e : env)
  : option (list AppConversation.t) :=
  option_map dropNull (useSubConversations e (JS.coalesce (subIds e) [])).

Definition v1AppConversation (e : env) (conversationId : string)
  : option AppConversation.t :=
  findConversation (filteredSubConversations e) conversationId.

(** [v1AppConversation?.conversation_url || conversation?.url] *)
Definition v1ConversationUrl (e : env) (conversationId : string) : JS.value :=
  JS.or (JS.chain (v1AppConversation e conversationId)
                  AppConversation.conversation_url)
        (JS.chain (useActiveConversation e) Conversation.url).

(** [v1AppConversation?.session_api_key || conversation?.session_api_key] *)
Definition v1SessionApiKey (e : env) (conversationId : string) : JS.value :=
  JS.or (JS.chain (v1AppConversation e conversationId)
                  AppConversation.session_api_key)
        (JS.chain (useActiveConversation e) Conversation.session_api_key).

Section Wrapper.

Variable ReactNode : Type.

(** The element the component returns. *)
Inductive element : Type :=
| WsClientProvider (conversationId : string) (children : ReactNode)
| ConversationWebSocketProvider
    (props : ConversationWebSocketProviderProps) (children : ReactNode).

(** A render either returns an element or throws. *)
Inductive outcome : Type :=
| Rendered (el : element)
| Thrown (ex : JS.exception).

(** The component.  The hooks are called and the sub-conversations
    filtered before the version is looked at; none of that can throw.
    The three [console.log] calls of the V1 branch print the candidate
    URLs and do not change what is returned or thrown.  Calling
    [replace] on a URL that is [undefined] or [null] throws a
    [TypeError].  The message of the final error is a template literal
    over the version; a version that cannot be converted to a string
    makes the literal throw before the error is made. *)
Definition WebSocketProviderWrapper (children : ReactNode)
           (conversationId : string) (version : JS.untyped) (e : env)
  : outcome :=
  if JS.is_number version 0 then
    Rendered (WsClientProvider conversationId children)
  else if JS.is_number version 1 then
    match v1ConversationUrl e conversationId with
    | JS.Str u =>
        let urlToUse := JS.replace "localhost" "sheepintry.com" u in
        Rendered
          (ConversationWebSocketProvider
             {| conversationId := conversationId;
                conversationUrl := urlToUse;
                sessionApiKey := v1SessionApiKey e conversationId;
                subConversationIds := subIds e;
                subConversations := filteredSubConversations e |}
             children)
    | JS.Undefined | JS.Null => Thrown JS.TypeError
    end
  else
    match JS.interpolate version with
    | inl text =>
        Thrown
          (JS.Error
             ("Unsupported WebSocket provider version: "
                ++ text
                ++ ". Supported versions are 0 and 1."))
    | inr ex => Thrown ex
    end.

(** Whether a render mounted one of the two providers. *)
Definition mounts (o : outcome) : bool :=
  match o with
  | Rendered _ => true
  | Thrown _ => false
  end.

(** The connection URL handed to the V1 provider, when it is mounted. *)
Definition mountedUrl (o : outcome) : option string :=
  match o with
  | Rendered (ConversationWebSocketProvider props _) =>
      Some (conversationUrl props)
  | Rendered (WsClientProvider _ _) | Thrown _ => None
  end.

End Wrapper.

Arguments WsClientProvider {ReactNode} conversationId children.
Arguments ConversationWebSocketProvider {ReactNode} props children.
Arguments Rendered {ReactNode} el.
Arguments Thrown {ReactNode} ex.
Arguments WebSocketProviderWrapper {ReactNode} children conversationId version e.
Arguments mounts {ReactNode} o.
Arguments mountedUrl {ReactNode} o.

End Transport.

(* ================================================================= *)
(** ** Vocabulary of the specification *)

Module Spec.

(** [p] occurs in [s] at position [n]. *)
Definition occurs_at (p s : string) (n : nat) : Prop :=
  exists pre post, s = pre ++ p ++ post /\ String.length pre = n.

(** [s] contains [p]. *)
Definition contains (p s : string) : Prop :=
  exists n, occurs_at p s n.

(** [s] starts with [p]. *)
Definition starts_with (p s : string) : Prop :=
  exists rest, s = p ++ rest.

(** The task marker of the route parameter. *)
Definition task_marker : string := "task-".

(** A field that is present: a string that is not empty, which is what the
    guards of the code let through. *)
Definition is_present (v : JS.value) : Prop :=
  exists s, v = JS.Str s /\ s <> "".

(** A ready task that carries a conversation identifier. *)
Definition ready_with_conversation (t : StartTask.t) (cid : string) : Prop :=
  StartTask.status t = "READY"
  /\ StartTask.app_conversation_id t = JS.Str cid
  /\ cid <> "".


Section Renders.

Import React Query TaskPolling.

Variable getStartTask : string -> nat -> settled StartTask.t.

(** Render [e] is a transition of the task for an effect that remembers
    [slot]: the effect has not run yet, or the polled data is not the
    object it ran with. *)
Definition new_data (slot : option (data StartTask.t * ref)) (e : env)
  : Prop :=
  match slot with
  | None => True
  | Some (d, _) => same_data d (polled getStartTask e) = false
  end.

(** Render [e'] shows the polled object of render [e] and was given the
    same [navigate] function. *)
Definition navigation_deps_kept (e e' : env) : Prop :=
  same_data (polled getStartTask e) (polled getStartTask e') = true
  /\ useNavigate e' = useNavigate e.

(** Render [e'] shows the polled object of render [e] and was given the
    same query client. *)
Definition precache_deps_kept (e e' : env) : Prop :=
  same_data (polled getStartTask e) (polled getStartTask e') = true
  /\ useQueryClient e' = useQueryClient e.

End Renders.

(** The navigations and the cache writes among the effects of a sequence
    of renders. *)
Definition navigations (log : list (list TaskPolling.effect))
  : list TaskPolling.effect :=
  filter TaskPolling.isNavigate (concat log).

Definition cache_writes (log : list (list TaskPolling.effect))
  : list TaskPolling.effect :=
  filter TaskPolling.isSetQueryData (concat log).

End Spec.

(* ================================================================= *)
(** ** Sample tasks, renders and backends *)

Module Examples.

Import React Query TaskPolling.

Definition ready_task : StartTask.t :=
  {| StartTask.id := "7f3a";
     StartTask.status := "READY";
     StartTask.detail := JS.Null;
     StartTask.app_conversation_id := JS.Str "c0ffee";
     StartTask.sandbox_id := JS.Str "sb-1";
     StartTask.agent_server_url := JS.Str "http://localhost:8000";
     StartTask.request := None |}.

(** A ready task with a conversation but no agent server URL. *)
Definition ready_task_without_url : StartTask.t :=
  {| StartTask.id := "7f3a";
     StartTask.status := "READY";
     StartTask.detail := JS.Null;
     StartTask.app_conversation_id := JS.Str "c0ffee";
     StartTask.sandbox_id := JS.Str "sb-1";
     StartTask.agent_server_url := JS.Null;
     StartTask.request := None |}.

Definition working_task : StartTask.t :=
  {| StartTask.id := "7f3a";
     StartTask.status := "WORKING";
     StartTask.detail := JS.Null;
     StartTask.app_conversation_id := JS.Null;
     StartTask.sandbox_id := JS.Null;
     StartTask.agent_server_url := JS.Null;
     StartTask.request := None |}.

(** The record the pre-cache effect writes for [ready_task]. *)
Definition ready_record : AppConversation.t :=
  {| AppConversation.id := JS.Str "c0ffee";
     AppConversation.conversation_url := JS.Str "http://localhost:8000";
     AppConversation.session_api_key := JS.Null;
     AppConversation.sandbox_id := JS.Str "sb-1" |}.

(** A query observer that shows the given data. *)
Definition showing (d : data StartTask.t)
  : options StartTask.t -> result StartTask.t :=
  fun _ => {| r_data := d; r_error := None; r_isLoading := false |}.

(** A render at the route [/conversations/{param}] showing [d]. *)
Definition render_at (param : string) (d : data StartTask.t) : env :=
  {| useConversationId := param;
     useNavigate := 1;
     useQueryClient := 2;
     useQuery := showing d |}.

(** A render at the route [/conversations/task-7f3a] showing [d]. *)
Definition render_showing (d : data StartTask.t) : env :=
  render_at "task-7f3a" d.

(** A backend that answers every call with the ready task, and one that
    fails every call. *)
Definition answering (t : StartTask.t)
  : string -> nat -> settled StartTask.t :=
  fun _ _ => Resolved t.

Definition failing (err : error) : string -> nat -> settled StartTask.t :=
  fun _ _ => Rejected err.

(** A backend that fails the first call only. *)
Definition failing_once (err : error) (t : StartTask.t)
  : string -> nat -> settled StartTask.t :=
  fun _ call => match call with O => Rejected err | S _ => Resolved t end.

(** A query observer that shows the settled first fetch of the query. *)
Definition fetching (o : options StartTask.t) : result StartTask.t :=
  match settle 8 7 o with
  | Some (_, r) => r
  | None => {| r_data := NoData; r_error := None; r_isLoading := true |}
  end.

Definition render_fetching : env :=
  {| useConversationId := "task-7f3a";
     useNavigate := 1;
     useQueryClient := 2;
     useQuery := fetching |}.

(** The wrapper while nothing is loaded yet. *)
Definition nothing_loaded : Transport.env :=
  {| Transport.useActiveConversation := None;
     Transport.useSubConversations := fun _ => None |}.

(** A conversation without URL whose sub-conversation has none either. *)
Definition loaded_without_url : Transport.env :=
  {| Transport.useActiveConversation :=
       Some {| Conversation.url := JS.Null;
               Conversation.session_api_key := JS.Null;
               Conversation.sub_conversation_ids := Some ["c0ffee"] |};
     Transport.useSubConversations :=
       fun _ => Some [ Some {| AppConversation.id := JS.Str "c0ffee";
                               AppConversation.conversation_url := JS.Null;
                               AppConversation.session_api_key := JS.Null;
                               AppConversation.sandbox_id := JS.Null |} ] |}.

(** A conversation served from the local agent server. *)
Definition loaded_local : Transport.env :=
  {| Transport.useActiveConversation :=
       Some {| Conversation.url := JS.Str "http://fallback.example/c";
               Conversation.session_api_key := JS.Str "key";
               Conversation.sub_conversation_ids := Some ["c0ffee"] |};
     Transport.useSubConversations :=
       fun _ => Some [ None;
                       Some {| AppConversation.id := JS.Str "c0ffee";
                               AppConversation.conversation_url :=
                                 JS.Str "http://localhost:8000/localhost";
                               AppConversation.session_api_key := JS.Null;
                               AppConversation.sandbox_id := JS.Null |} ] |}.

End Examples.

(* ================================================================= *)
(** ** Reading the results of a render *)

Module Reading.

Import Transport.

(** [subConversations], as the hook [useSubConversations] returns them for
    [conversation?.sub_conversation_ids ?? []], before the null ones are
    filtered out. *)
Definition fetchedSubConversations (e : env)
  : option (list (option AppConversation.t)) :=
  useSubConversations e (JS.coalesce (subIds e) []).

(** [subConversation !== null] *)
Definition notNull {A : Type} (o : option A) : bool :=
  match o with
  | Some _ => true
  | None => false
  end.

(** The props handed to the V1 provider, when it is mounted. *)
Definition mountedProps {ReactNode : Type} (o : outcome ReactNode)
  : option ConversationWebSocketProviderProps :=
  match o with
  | Rendered (ConversationWebSocketProvider props _) => Some props
  | Rendered (WsClientProvider _ _) | Thrown _ => None
  end.

(** The children handed to the mounted provider. *)
Definition mountedChildren {ReactNode : Type} (o : outcome ReactNode)
  : option ReactNode :=
  match o with
  | Rendered (ConversationWebSocketProvider _ children) => Some children
  | Rendered (WsClientProvider _ children) => Some children
  | Thrown _ => None
  end.

(** A render of the wrapper in which the sub-conversation query shows the
    records that were written into the query cache. *)
Definition reading_cache (conversation : option Conversation.t)
           (records : list AppConversation.t) : env :=
  {| useActiveConversation := conversation;
     useSubConversations := fun _ => Some (map Some records) |}.

End Reading.

(* ================================================================= *)
(** ** Further sample tasks and renders *)

Module MoreExamples.

Import React Query TaskPolling.

(** A task that failed to start. *)
Definition error_task : StartTask.t :=
  {| StartTask.id := "7f3a";
     StartTask.status := "ERROR";
     StartTask.detail := JS.Str "sandbox could not be started";
     StartTask.app_conversation_id := JS.Null;
     StartTask.sandbox_id := JS.Null;
     StartTask.agent_server_url := JS.Null;
     StartTask.request := None |}.

(** The hook after a render that showed the ready task as object 5 and
    was handed the query client 2 and another [navigate] function, 9. *)
Definition rendered_with_other_navigate : slots :=
  {| precache_slot := Some (Obj 5 Examples.ready_task, 2);
     navigate_slot := Some (Obj 5 Examples.ready_task, 9) |}.

(** A render at the route [/conversations/task-7f3a] showing [d] that is
    handed the [navigate] function [n] and the query client [q]. *)
Definition render_with (n q : ref) (d : data StartTask.t) : env :=
  {| useConversationId := "task-7f3a";
     useNavigate := n;
     useQueryClient := q;
     useQuery := Examples.showing d |}.

(** The sub-conversation of [Examples.loaded_local]. *)
Definition local_record : AppConversation.t :=
  {| AppConversation.id := JS.Str "c0ffee";
     AppConversation.conversation_url :=
       JS.Str "http://localhost:8000/localhost";
     AppConversation.session_api_key := JS.Null;
     AppConversation.sandbox_id := JS.Null |}.

End MoreExamples.

(* ================================================================= *)
(** ** Facts about strings and [replace] *)

Module StringFacts.

Import Spec.

Lemma append_assoc (a b c : string) : (a ++ b) ++ c = a ++ b ++ c.
Proof. induction a as [|x a IH]; simpl; [reflexivity | now rewrite IH]. Qed.

Lemma length_append (a b : string) :
  String.length (a ++ b) = String.length a + String.length b.
Proof. induction a as [|x a IH]; simpl; [reflexivity | now rewrite IH]. Qed.

(** Two splittings of one string at the same position agree. *)
Lemma append_split_eq (a a' b b' : string) :
  a ++ b = a' ++ b' -> String.length a = String.length a' ->
  a = a' /\ b = b'.
Proof.
  revert a'; induction a as [|x a IH]; intros [|y a'] E L;
    simpl in *; try discriminate.
  - now split.
  - injection E as -> E. injection L as L.
    destruct (IH _ E L) as [-> ->]. now split.
Qed.

Lemma prefix_starts_with (p s : string) :
  prefix p s = true <-> starts_with p s.
Proof.
  unfold starts_with. revert s; induction p as [|c p IH]; intros s.
  - destruct s; simpl; split; intros _; try reflexivity;
      eexists; reflexivity.
  - destruct s as [|d s]; simpl.
    + split; [discriminate | intros [r E]; discriminate].
    + destruct (ascii_dec c d) as [->|N].
      * rewrite IH. split; intros [r E]; exists r.
        -- now rewrite E.
        -- now injection E.
      * split; [discriminate | intros [r E]]. injection E as E1 _.
        now elim N.
Qed.

Lemma prefix_append (p rest : string) : prefix p (p ++ rest) = true.
Proof. apply prefix_starts_with. now exists rest. Qed.

Lemma occurs_at_0 (p s : string) : occurs_at p s 0 <-> starts_with p s.
Proof.
  split.
  - intros (pre & post & E & L). destruct pre; [|discriminate].
    now exists post.
  - intros [rest E]. now exists "", rest.
Qed.

Lemma occurs_at_S (p : string) (c : ascii) (s : string) (n : nat) :
  occurs_at p (String c s) (S n) <-> occurs_at p s n.
Proof.
  split.
  - intros (pre & post & E & L). destruct pre as [|d pre]; [discriminate|].
    simpl in E, L. injection E as _ E. injection L as L.
    now exists pre, post.
  - intros (pre & post & E & L). exists (String c pre), post.
    simpl. now rewrite E, L.
Qed.

Lemma occurs_at_empty (p : string) (n : nat) :
  occurs_at p "" n -> n = 0.
Proof.
  intros (pre & post & E & L). destruct pre; [now simpl in L|discriminate].
Qed.

Lemma indexOf_unfold (p s : string) :
  JS.indexOf p s =
  if prefix p s then Some 0
  else match s with
       | EmptyString => None
       | String _ s' => option_map S (JS.indexOf p s')
       end.
Proof. destruct s; reflexivity. Qed.

(** [indexOf] finds an occurrence, and the least one. *)
Lemma indexOf_Some (p s : string) (n : nat) :
  JS.indexOf p s = Some n ->
  occurs_at p s n /\ forall m, m < n -> ~ occurs_at p s m.
Proof.
  revert n; induction s as [|c s IH]; intros n; rewrite indexOf_unfold.
  - destruct (prefix p "") eqn:P; [|discriminate].
    intros [= <-]. split; [|intros m Hm; lia].
    apply occurs_at_0, prefix_starts_with, P.
  - destruct (prefix p (String c s)) eqn:P.
    + intros [= <-]. split; [|intros m Hm; lia].
      apply occurs_at_0, prefix_starts_with, P.
    + destruct (JS.indexOf p s) as [k|] eqn:I; simpl; [|discriminate].
      intros [= <-]. destruct (IH k eq_refl) as [O M]. split.
      * now apply occurs_at_S.
      * intros [|m] Hm Hocc.
        -- apply occurs_at_0, prefix_starts_with in Hocc. congruence.
        -- apply occurs_at_S in Hocc. apply (M m); [lia | exact Hocc].
Qed.

(** [indexOf] answers -1 only when there is no occurrence. *)
Lemma indexOf_None (p s : string) :
  JS.indexOf p s = None -> ~ contains p s.
Proof.
  induction s as [|c s IH]; rewrite indexOf_unfold.
  - destruct (prefix p "") eqn:P; [discriminate|].
    intros _ [n Hocc]. pose proof (occurs_at_empty _ _ Hocc) as ->.
    apply occurs_at_0, prefix_starts_with in Hocc. congruence.
  - destruct (prefix p (String c s)) eqn:P; [discriminate|].
    destruct (JS.indexOf p s) as [k|] eqn:I; simpl; [discriminate|].
    intros _ [[|n] Hocc].
    + apply occurs_at_0, prefix_starts_with in Hocc. congruence.
    + apply occurs_at_S in Hocc. apply IH; [reflexivity | now exists n].
Qed.

(** The position of the first occurrence is what [indexOf] returns. *)
Lemma indexOf_first (p s : string) (n : nat) :
  occurs_at p s n -> (forall m, m < n -> ~ occurs_at p s m) ->
  JS.indexOf p s = Some n.
Proof.
  intros Hocc Hmin. destruct (JS.indexOf p s) as [k|] eqn:I.
  - destruct (indexOf_Some _ _ _ I) as [Hk Hkmin].
    destruct (Nat.lt_trichotomy k n) as [L|[->|L]]; [|reflexivity|].
    + now elim (Hmin k L).
    + now elim (Hkmin n L).
  - elim (indexOf_None _ _ I). now exists n.
Qed.

Lemma substring_whole (s : string) : substring 0 (String.length s) s = s.
Proof. induction s as [|c s IH]; simpl; [reflexivity | now rewrite IH]. Qed.

Lemma substring_head (pre rest : string) :
  substring 0 (String.length pre) (pre ++ rest) = pre.
Proof.
  induction pre as [|c pre IH]; simpl.
  - now destruct rest.
  - now rewrite IH.
Qed.

Lemma substring_tail (pre rest : string) (k m : nat) :
  substring (String.length pre + k) m (pre ++ rest) = substring k m rest.
Proof. induction pre as [|c pre IH]; simpl; [reflexivity | exact IH]. Qed.

Lemma substring_after (pre p post : string) :
  substring (String.length pre + String.length p)
            (String.length (pre ++ p ++ post)
             - (String.length pre + String.length p))
            (pre ++ p ++ post) = post.
Proof.
  rewrite !length_append.
  replace (String.length pre + (String.length p + String.length post)
           - (String.length pre + String.length p))
    with (String.length post) by lia.
  rewrite substring_tail.
  rewrite <- (Nat.add_0_r (String.length p)).
  rewrite substring_tail. apply substring_whole.
Qed.

(** [replace] at a known first occurrence. *)
Lemma replace_at (p r pre post : string) :
  JS.indexOf p (pre ++ p ++ post) = Some (String.length pre) ->
  JS.replace p r (pre ++ p ++ post) = pre ++ r ++ post.
Proof.
  intros I. unfold JS.replace. rewrite I.
  now rewrite substring_head, substring_after.
Qed.

(** The first occurrence of the pattern is replaced. *)
Lemma replace_first (p r pre post : string) :
  (forall m, m < String.length pre -> ~ occurs_at p (pre ++ p ++ post) m) ->
  JS.replace p r (pre ++ p ++ post) = pre ++ r ++ post.
Proof.
  intros Hmin. apply replace_at, indexOf_first; [|exact Hmin].
  now exists pre, post.
Qed.

(** A string without the pattern is returned as it is. *)
Lemma replace_absent (p r s : string) :
  ~ contains p s -> JS.replace p r s = s.
Proof.
  intros H. unfold JS.replace.
  destruct (JS.indexOf p s) as [n|] eqn:I; [|reflexivity].
  elim H. exists n. now apply indexOf_Some.
Qed.

(** A pattern at the start of the string is the first occurrence. *)
Lemma replace_prefix (p r rest : string) :
  JS.replace p r (p ++ rest) = r ++ rest.
Proof.
  apply (replace_first p r "" rest). simpl. intros m Hm. lia.
Qed.

End StringFacts.

(* ================================================================= *)
(** ** The task poller: identifiers and the poll schedule *)

Module PollerFacts.

Import React Query TaskPolling Spec StringFacts.

Lemma startsWith_marker (s : string) :
  JS.startsWith s task_marker = true <-> starts_with task_marker s.
Proof. apply prefix_starts_with. Qed.

Lemma extractTaskId_marker (rest : string) :
  extractTaskId (task_marker ++ rest) = JS.Str rest.
Proof.
  unfold extractTaskId, JS.startsWith.
  change "task-" with task_marker.
  now rewrite prefix_append, replace_prefix.
Qed.

Lemma extractTaskId_other (s : string) :
  ~ starts_with task_marker s -> extractTaskId s = JS.Null.
Proof.
  intros H. unfold extractTaskId.
  destruct (JS.startsWith s "task-") eqn:P; [|reflexivity].
  elim H. now apply startsWith_marker.
Qed.

Section Poller.

Variable getStartTask : string -> nat -> settled StartTask.t.

(** C1.  For a task that is present in the query data, the
    [refetchInterval] callback answers [false] (polling stops) exactly
    when the status of the task is "READY" or "ERROR"; for every other
    status it answers the interval of 3000 ms, and this callback is the
    one the task query is configured with. *)
Theorem polling_stops_exactly_at_terminal_status
        (taskId : JS.value) (at_ : ref) (task : StartTask.t) :
  let schedule :=
    Query.refetchInterval (taskQueryOptions getStartTask taskId) in
  (schedule (Obj at_ task) = NoRefetch
   <-> StartTask.status task = "READY" \/ StartTask.status task = "ERROR")
  /\ (schedule (Obj at_ task) = Every 3000
      <-> ~ (StartTask.status task = "READY"
             \/ StartTask.status task = "ERROR")).
Proof.
  cbn. unfold refetchInterval. cbn [present].
  destruct (String.eqb_spec (StartTask.status task) "READY") as [R|R];
    destruct (String.eqb_spec (StartTask.status task) "ERROR") as [E|E];
    cbn [orb]; (split; split; intros H; try discriminate;
                try reflexivity; tauto).
Qed.

(** C4.  When the route parameter starts with the marker "task-", the
    task identifier the hook returns is the rest of the parameter after
    that marker, whatever the rest contains; when the parameter does not
    start with the marker, the task identifier is null. *)
Theorem task_id_is_remainder_after_marker (e : env) (s : slots) :
  (forall rest,
      useConversationId e = task_marker ++ rest ->
      taskId (returned_by getStartTask e s) = JS.Str rest)
  /\ (~ starts_with task_marker (useConversationId e) ->
      taskId (returned_by getStartTask e s) = JS.Null).
Proof.
  assert (T : taskId (returned_by getStartTask e s)
              = extractTaskId (useConversationId e)).
  { unfold returned_by, useTaskPolling.
    destruct (useEffect _ (precache_slot s) _ _);
      destruct (useEffect _ (navigate_slot s) _ _); reflexivity. }
  rewrite T. split.
  - intros rest ->. apply extractTaskId_marker.
  - apply extractTaskId_other.
Qed.

(** C9.  Exactly one of the returned [taskId] and [conversationId] is
    non-null: with the marker, [taskId] is the rest of the parameter and
    [conversationId] is null; without it, [taskId] is null and
    [conversationId] is the parameter itself. *)
Theorem task_id_xor_conversation_id (e : env) (s : slots) :
  let r := returned_by getStartTask e s in
  (forall rest,
      useConversationId e = task_marker ++ rest ->
      taskId r = JS.Str rest /\ conversationId r = JS.Null)
  /\ (~ starts_with task_marker (useConversationId e) ->
      taskId r = JS.Null
      /\ conversationId r = JS.Str (useConversationId e))
  /\ ((taskId r <> JS.Null /\ conversationId r = JS.Null)
      \/ (taskId r = JS.Null /\ conversationId r <> JS.Null)).
Proof.
  cbv zeta.
  assert (T : taskId (returned_by getStartTask e s)
              = extractTaskId (useConversationId e)
              /\ conversationId (returned_by getStartTask e s)
                 = if JS.startsWith (useConversationId e) "task-"
                   then JS.Null else JS.Str (useConversationId e)).
  { unfold returned_by, useTaskPolling.
    destruct (useEffect _ (precache_slot s) _ _);
      destruct (useEffect _ (navigate_slot s) _ _); split; reflexivity. }
  destruct T as [-> ->].
  destruct (JS.startsWith (useConversationId e) "task-") eqn:P.
  - apply startsWith_marker in P. destruct P as [rest0 E0].
    rewrite E0, extractTaskId_marker.
    split; [|split].
    + intros rest E. apply append_split_eq in E as [_ ->];
        [now split | reflexivity].
    + intros N. elim N. now exists rest0.
    + left. split; [discriminate | reflexivity].
  - assert (N : ~ starts_with task_marker (useConversationId e)).
    { intros H. apply startsWith_marker in H.
      unfold task_marker in H. congruence. }
    rewrite (extractTaskId_other _ N).
    split; [|split].
    + intros rest E. elim N. now exists rest.
    + intros _. now split.
    + right. split; [reflexivity | discriminate].
Qed.

End Poller.

End PollerFacts.

(* ================================================================= *)
(** ** The task poller: one render and its effects *)

Module HookFacts.

Import React Query TaskPolling Spec.

Lemma truthy_is_present (v : JS.value) :
  JS.truthy v = true <-> is_present v.
Proof.
  unfold is_present. destruct v as [| |s]; simpl.
  - split; [discriminate | intros (s & E & _); discriminate].
  - split; [discriminate | intros (s & E & _); discriminate].
  - destruct (String.eqb_spec s "") as [->|N]; simpl.
    + split; [discriminate | intros (s & [= <-] & N); now elim N].
    + split; [intros _; now exists s | reflexivity].
Qed.

(** Split on the condition of the guard in the goal. *)
Ltac case_guard :=
  match goal with
  | |- context [if ?c then _ else _] => destruct c
  end.

(** Whether an effect with remembered dependencies [slot] runs its body
    when rendered with [deps]. *)
Lemma useEffect_runs {E : Type} (slot : option (data StartTask.t * ref))
      (deps : data StartTask.t * ref) (body : list E) :
  useEffect same_deps slot deps body
  = (match slot with
     | None => body
     | Some old => if same_deps old deps then [] else body
     end, Some deps).
Proof.
  unfold useEffect. destruct slot as [old|]; [|reflexivity].
  now destruct (same_deps old deps).
Qed.

(** What the navigation effect does in a render, by its guard. *)
Lemma navigation_ready (at_ : ref) (t : StartTask.t) (cid : string) :
  ready_with_conversation t cid ->
  navigation (Obj at_ t) = [Navigate ("/conversations/" ++ cid) true].
Proof.
  intros (R & I & N). unfold navigation. cbn [present].
  rewrite R, I. cbn [String.eqb]. simpl.
  destruct (String.eqb_spec cid "") as [->|_]; [now elim N | reflexivity].
Qed.

Lemma navigation_inv (d : data StartTask.t) (x : effect) :
  In x (navigation d) ->
  exists at_ t cid,
    d = Obj at_ t /\ ready_with_conversation t cid
    /\ x = Navigate ("/conversations/" ++ cid) true.
Proof.
  unfold navigation. destruct d as [| |at_ t]; cbn [present];
    try (intros []).
  destruct (String.eqb_spec (StartTask.status t) "READY") as [R|R];
    cbn [andb]; [|intros []].
  destruct (JS.truthy (StartTask.app_conversation_id t)) eqn:T; [|intros []].
  apply truthy_is_present in T. destruct T as (cid & I & N).
  intros [<-|[]]. exists at_, t, cid. rewrite I.
  repeat split; assumption.
Qed.

Lemma precache_inv (d : data StartTask.t) (x : effect) :
  In x (precache d) ->
  exists at_ t,
    d = Obj at_ t
    /\ StartTask.status t = "READY"
    /\ is_present (StartTask.app_conversation_id t)
    /\ is_present (StartTask.agent_server_url t)
    /\ x = SetQueryData
             [ KStr "v1"; KStr "sub-conversations";
               KArray [StartTask.app_conversation_id t] ]
             [ {| AppConversation.id := StartTask.app_conversation_id t;
                  AppConversation.conversation_url :=
                    StartTask.agent_server_url t;
                  AppConversation.session_api_key := JS.Null;
                  AppConversation.sandbox_id := StartTask.sandbox_id t |} ].
Proof.
  unfold precache. destruct d as [| |at_ t]; cbn [present];
    try (intros []).
  destruct (String.eqb_spec (StartTask.status t) "READY") as [R|R];
    cbn [andb]; [|intros []].
  destruct (JS.truthy (StartTask.app_conversation_id t)) eqn:T;
    cbn [andb]; [|intros []].
  destruct (JS.truthy (StartTask.agent_server_url t)) eqn:U; [|intros []].
  apply truthy_is_present in T. apply truthy_is_present in U.
  intros [<-|[]]. exists at_, t. repeat split; assumption.
Qed.

Lemma precache_without_url (at_ : ref) (t : StartTask.t) :
  ~ is_present (StartTask.agent_server_url t) -> precache (Obj at_ t) = [].
Proof.
  intros N. unfold precache. cbn [present].
  destruct (JS.truthy (StartTask.agent_server_url t)) eqn:U.
  - elim N. now apply truthy_is_present.
  - now rewrite andb_false_r.
Qed.

Lemma precache_at_most_one (d : data StartTask.t) :
  List.length (precache d) <= 1.
Proof.
  unfold precache. destruct (present d) as [t|]; [|simpl; lia].
  case_guard;
    simpl; lia.
Qed.

Lemma navigation_at_most_one (d : data StartTask.t) :
  List.length (navigation d) <= 1.
Proof.
  unfold navigation. destruct (present d) as [t|]; [|simpl; lia].
  case_guard;
    simpl; lia.
Qed.

Lemma precache_only_writes (d : data StartTask.t) :
  filter isNavigate (precache d) = []
  /\ filter isSetQueryData (precache d) = precache d.
Proof.
  unfold precache. destruct (present d) as [t|]; [|now split].
  case_guard;
    now split.
Qed.

Lemma navigation_only_navigates (d : data StartTask.t) :
  filter isSetQueryData (navigation d) = []
  /\ filter isNavigate (navigation d) = navigation d.
Proof.
  unfold navigation. destruct (present d) as [t|]; [|now split].
  case_guard;
    now split.
Qed.

Section Render.

Variable getStartTask : string -> nat -> settled StartTask.t.

(** One render, taken apart. *)
Lemma render_effects (e : env) (s : slots) :
  effects_of getStartTask e s
  = (fst (useEffect same_deps (precache_slot s)
                    (polled getStartTask e, useQueryClient e)
                    (precache (polled getStartTask e)))
       ++ fst (useEffect same_deps (navigate_slot s)
                         (polled getStartTask e, useNavigate e)
                         (navigation (polled getStartTask e))))%list.
Proof.
  unfold effects_of, useTaskPolling, polled.
  now rewrite !useEffect_runs.
Qed.

Lemma render_slots (e : env) (s : slots) :
  slots_of getStartTask e s
  = {| precache_slot := Some (polled getStartTask e, useQueryClient e);
       navigate_slot := Some (polled getStartTask e, useNavigate e) |}.
Proof.
  unfold slots_of, useTaskPolling, polled.
  now rewrite !useEffect_runs.
Qed.

Lemma render_error (e : env) (s : slots) :
  taskError (returned_by getStartTask e s)
  = r_error (useQuery e (taskQueryOptions getStartTask
                           (extractTaskId (useConversationId e)))).
Proof.
  unfold returned_by, useTaskPolling.
  now rewrite !useEffect_runs.
Qed.

Lemma renders_cons (e : env) (s : slots) (es : list env) :
  renders getStartTask s (e :: es)
  = effects_of getStartTask e s
      :: renders getStartTask (slots_of getStartTask e s) es.
Proof.
  unfold effects_of, slots_of. cbn [renders].
  now destruct (useTaskPolling getStartTask e s) as [[r s'] fx].
Qed.

(** The effects of a render come from the two bodies. *)
Lemma effects_from_bodies (e : env) (s : slots) (x : effect) :
  In x (effects_of getStartTask e s) ->
  In x (precache (polled getStartTask e))
  \/ In x (navigation (polled getStartTask e)).
Proof.
  rewrite render_effects, !useEffect_runs. cbn [fst].
  intros H. apply in_app_or in H. destruct H as [H|H]; [left|right].
  - destruct (precache_slot s) as [old|]; [|exact H].
    destruct (same_deps old _); [destruct H | exact H].
  - destruct (navigate_slot s) as [old|]; [|exact H].
    destruct (same_deps old _); [destruct H | exact H].
Qed.

End Render.

End HookFacts.

(* ================================================================= *)
(** ** The task poller: effects over a sequence of renders *)

Module EffectFacts.

Import React Query TaskPolling Spec HookFacts.

Lemma same_ref_refl (a : ref) : same_ref a a = true.
Proof. apply Nat.eqb_refl. Qed.

(** Two data that are the same object as a third are the same object. *)
Lemma same_data_common {A : Type} (a b c : data A) :
  same_data a b = true -> same_data a c = true -> same_data b c = true.
Proof.
  destruct a, b, c; simpl; try discriminate; try reflexivity.
  unfold same_ref. rewrite !Nat.eqb_eq. congruence.
Qed.

Lemma same_data_refl {A : Type} (a : data A) : same_data a a = true.
Proof. destruct a; simpl; auto using same_ref_refl. Qed.

Section Trace.

Variable getStartTask : string -> nat -> settled StartTask.t.

Local Abbreviation polled := (polled getStartTask).
Local Abbreviation renders := (renders getStartTask).
Local Abbreviation effects_of := (effects_of getStartTask).

(** An effect whose dependencies are kept does not run. *)
Lemma kept_effect_is_quiet {E : Type} (d d' : data StartTask.t)
      (r : ref) (body : list E) :
  same_data d d' = true ->
  fst (useEffect same_deps (Some (d, r)) (d', r) body) = [].
Proof.
  intros H. rewrite useEffect_runs. cbn [fst].
  unfold same_deps. cbn [fst snd]. now rewrite H, same_ref_refl.
Qed.

(** An effect that sees new data runs its body. *)
Lemma new_effect_runs {E : Type} (slot : option (data StartTask.t * ref))
      (d : data StartTask.t) (r : ref) (body : list E) :
  match slot with
  | None => True
  | Some (old, _) => same_data old d = false
  end ->
  fst (useEffect same_deps slot (d, r) body) = body.
Proof.
  intros H. rewrite useEffect_runs. cbn [fst].
  destruct slot as [[old r']|]; [|reflexivity].
  unfold same_deps. cbn [fst snd]. now rewrite H.
Qed.

(** While the navigation dependencies are kept, no render navigates. *)
Lemma no_navigation_while_kept (e : env) (after : list env) :
  Forall (navigation_deps_kept getStartTask e) after ->
  forall (s : slots) (d : data StartTask.t),
    navigate_slot s = Some (d, useNavigate e) ->
    same_data (polled e) d = true ->
    navigations (renders s after) = [].
Proof.
  unfold navigations.
  induction 1 as [|e' after [D N] _ IH]; intros s d Hs Hd;
    [reflexivity|].
  rewrite renders_cons. cbn [concat]. rewrite filter_app.
  rewrite (IH (slots_of getStartTask e' s) (polled e')); cycle 1.
  - rewrite render_slots. cbn. now rewrite N.
  - exact D.
  - rewrite app_nil_r, render_effects, filter_app, Hs, N.
    rewrite kept_effect_is_quiet
      by (eapply same_data_common; eassumption).
    rewrite app_nil_r, useEffect_runs. cbn [fst].
    destruct (precache_slot s) as [old|];
      [destruct (same_deps old _); [reflexivity|]|];
      apply precache_only_writes.
Qed.

(** While the dependencies of both effects are kept, nothing runs. *)
Lemma no_effect_while_kept (e : env) (after : list env) :
  Forall (fun e' => navigation_deps_kept getStartTask e e'
                    /\ precache_deps_kept getStartTask e e') after ->
  forall (s : slots) (d1 d2 : data StartTask.t),
    precache_slot s = Some (d1, useQueryClient e) ->
    navigate_slot s = Some (d2, useNavigate e) ->
    same_data (polled e) d1 = true ->
    same_data (polled e) d2 = true ->
    concat (renders s after) = [].
Proof.
  induction 1 as [|e' after [[D N] [_ Q]] _ IH];
    intros s d1 d2 Hs1 Hs2 Hd1 Hd2; [reflexivity|].
  rewrite renders_cons. cbn [concat].
  rewrite (IH (slots_of getStartTask e' s) (polled e') (polled e'));
    cycle 1.
  - rewrite render_slots. cbn. now rewrite Q.
  - rewrite render_slots. cbn. now rewrite N.
  - exact D.
  - exact D.
  - rewrite app_nil_r, render_effects, Hs1, Hs2, N, Q.
    rewrite !kept_effect_is_quiet
      by (eapply same_data_common; eassumption).
    reflexivity.
Qed.

(** C2, as the code has it.  Navigation happens only for a ready task
    with a conversation identifier, and then to "/conversations/" followed
    by that identifier, replacing the current entry.  When a render shows
    such a task as new data (the status transition), the navigation fires
    in that render, and it does not fire again in the renders that follow
    as long as they show the same polled object and are handed the same
    [navigate] function, the two dependencies of the effect. *)
Theorem navigation_fires_exactly_once (e : env) (s : slots) :
  (forall to r,
      In (Navigate to r) (effects_of e s) ->
      exists at_ t cid,
        polled e = Obj at_ t /\ ready_with_conversation t cid
        /\ to = "/conversations/" ++ cid /\ r = true)
  /\ (forall at_ t cid after,
         polled e = Obj at_ t ->
         ready_with_conversation t cid ->
         new_data getStartTask (navigate_slot s) e ->
         Forall (navigation_deps_kept getStartTask e) after ->
         navigations (renders s (e :: after))
         = [Navigate ("/conversations/" ++ cid) true]).
Proof.
  split.
  - intros to r H. apply effects_from_bodies in H. destruct H as [H|H].
    + apply precache_inv in H. destruct H as (? & ? & _ & _ & _ & _ & H).
      discriminate.
    + apply navigation_inv in H.
      destruct H as (at_ & t & cid & D & R & [= -> ->]).
      now exists at_, t, cid.
  - intros at_ t cid after D R New Kept. unfold navigations.
    rewrite renders_cons. cbn [concat]. rewrite filter_app.
    fold (navigations (renders (slots_of getStartTask e s) after)).
    rewrite (no_navigation_while_kept e after Kept _ (polled e));
      [| now rewrite render_slots | apply same_data_refl].
    rewrite app_nil_r, render_effects, filter_app.
    rewrite (new_effect_runs (navigate_slot s)) by exact New.
    rewrite D, (navigation_ready _ _ _ R). cbn [filter isNavigate].
    rewrite useEffect_runs. cbn [fst].
    destruct (precache_slot s) as [old|];
      [destruct (same_deps old _); [reflexivity|]|];
      now rewrite (proj1 (precache_only_writes _)).
Qed.

(** C6, as the code has it.  When a render shows new data and the
    renders after it keep the polled object, the [navigate] function
    and the query client, all effects run in that one render; the cache
    is written at most once and the navigation fires at most once; and
    the cache is written exactly when the navigation fires and the task
    also carries an agent server URL. *)
Theorem cache_write_needs_navigation_and_url
        (e : env) (s : slots) (after : list env) :
  new_data getStartTask (precache_slot s) e ->
  new_data getStartTask (navigate_slot s) e ->
  Forall (fun e' => navigation_deps_kept getStartTask e e'
                    /\ precache_deps_kept getStartTask e e') after ->
  let log := renders s (e :: after) in
  concat log = effects_of e s
  /\ List.length (cache_writes log) <= 1
  /\ List.length (navigations log) <= 1
  /\ (cache_writes log <> []
      <-> navigations log <> []
          /\ exists at_ t,
              polled e = Obj at_ t
              /\ is_present (StartTask.agent_server_url t)).
Proof.
  intros New1 New2 Kept log.
  assert (L : concat log = (precache (polled e)
                              ++ navigation (polled e))%list).
  { unfold log. rewrite renders_cons. cbn [concat].
    rewrite (no_effect_while_kept e after Kept _ (polled e) (polled e));
      try (now rewrite render_slots); try apply same_data_refl.
    rewrite app_nil_r, render_effects.
    now rewrite !new_effect_runs by assumption. }
  assert (W : cache_writes log = precache (polled e)).
  { unfold cache_writes. rewrite L, filter_app.
    rewrite (proj2 (precache_only_writes _)).
    rewrite (proj1 (navigation_only_navigates _)). apply app_nil_r. }
  assert (N : navigations log = navigation (polled e)).
  { unfold navigations. rewrite L, filter_app.
    rewrite (proj1 (precache_only_writes _)).
    now rewrite (proj2 (navigation_only_navigates _)). }
  rewrite W, N. split; [|split; [|split]].
  - rewrite L, render_effects. now rewrite !new_effect_runs by assumption.
  - apply precache_at_most_one.
  - apply navigation_at_most_one.
  - unfold precache, navigation.
    destruct (polled e) as [| |at_ t]; cbn [present].
    + split; [intros H; now elim H | intros [H _]; now elim H].
    + split; [intros H; now elim H | intros [H _]; now elim H].
    + destruct (andb _ (JS.truthy (StartTask.app_conversation_id t)));
        cbn [andb].
      * destruct (JS.truthy (StartTask.agent_server_url t)) eqn:U.
        -- split; [intros _ | discriminate].
           split; [discriminate|]. exists at_, t.
           split; [reflexivity | now apply truthy_is_present].
        -- split; [intros H; now elim H|].
           intros [_ (a & t' & [= _ <-] & P)].
           apply truthy_is_present in P. congruence.
      * split; [intros H; now elim H | intros [H _]; now elim H].
Qed.

(** C10.  Every record the pre-cache effect writes has a null
    [session_api_key] and takes its [id] from the task's
    [app_conversation_id], its [conversation_url] from the task's
    [agent_server_url] and its [sandbox_id] from the task's
    [sandbox_id]; the task then has an [agent_server_url], and a task
    without one writes nothing. *)
Theorem precache_record_fields (e : env) (s : slots) :
  (forall key recs rec,
      In (SetQueryData key recs) (effects_of e s) ->
      In rec recs ->
      exists at_ t,
        polled e = Obj at_ t
        /\ AppConversation.session_api_key rec = JS.Null
        /\ AppConversation.id rec = StartTask.app_conversation_id t
        /\ AppConversation.conversation_url rec
           = StartTask.agent_server_url t
        /\ AppConversation.sandbox_id rec = StartTask.sandbox_id t
        /\ is_present (StartTask.agent_server_url t))
  /\ (forall at_ t,
         polled e = Obj at_ t ->
         ~ is_present (StartTask.agent_server_url t) ->
         cache_writes [effects_of e s] = []).
Proof.
  split.
  - intros key recs rec H Hrec.
    apply effects_from_bodies in H. destruct H as [H|H].
    + apply precache_inv in H.
      destruct H as (at_ & t & D & _ & _ & U & [= -> ->]).
      destruct Hrec as [<-|[]]. exists at_, t. now repeat split.
    + apply navigation_inv in H.
      destruct H as (? & ? & ? & _ & _ & H). discriminate.
  - intros at_ t D U. unfold cache_writes. cbn [concat].
    rewrite app_nil_r, render_effects, filter_app, !useEffect_runs.
    cbn [fst]. rewrite D, (precache_without_url _ _ U).
    assert (F : forall l : bool, (if l then [] else []) = @nil effect)
      by (now intros []).
    destruct (precache_slot s) as [old|]; [rewrite F|]; cbn [filter app];
      (destruct (navigate_slot s) as [old'|];
       [destruct (same_deps old' _); [reflexivity|]|];
       apply navigation_only_navigates).
Qed.

(** C5.  The task query is configured with [retry: false], and the
    error of the task query is what the hook returns as [taskError].
    Hence, when the first call of the poll endpoint for a task fails,
    the fetch settles after that single call, whatever later calls
    would have answered, and a render that shows the settled query
    returns the failure in [taskError]. *)
Theorem fetch_failure_is_surfaced_not_retried
        (e : env) (s : slots) (i : string) (err : error)
        (fuel : nat) (at_ : ref) :
  extractTaskId (useConversationId e) = JS.Str i ->
  i <> "" ->
  getStartTask i 0 = Rejected err ->
  let o := taskQueryOptions getStartTask (JS.Str i) in
  retry o = RetryBool false
  /\ taskError (returned_by getStartTask e s) = r_error (useQuery e o)
  /\ exists res,
      settle (S fuel) at_ o = Some (1, res)
      /\ r_error res = Some err
      /\ (useQuery e o = res ->
          taskError (returned_by getStartTask e s) = Some err).
Proof.
  intros T N F o. split; [reflexivity|].
  assert (R : taskError (returned_by getStartTask e s)
              = r_error (useQuery e o))
    by (rewrite render_error, T; reflexivity).
  split; [exact R|].
  exists {| r_data := NoData; r_error := Some err; r_isLoading := false |}.
  split; [|split].
  - unfold settle, o. cbn [enabled queryFn retry taskQueryOptions].
    assert (P : JS.truthy (JS.Str i) = true)
      by (apply truthy_is_present; now exists i).
    rewrite P. cbn [fetch]. unfold taskQueryFn. rewrite P. cbn [negb].
    rewrite F. reflexivity.
  - reflexivity.
  - intros Q. now rewrite R, Q.
Qed.

End Trace.

End EffectFacts.

(* ================================================================= *)
(** ** The transport selector *)

Module TransportFacts.

Import Transport Spec StringFacts.

Section Selector.

Variable ReactNode : Type.
Variable children : ReactNode.

(** The V1 branch mounts its provider exactly when the connection URL is
    resolved to a string. *)
Lemma v1_mounts_iff_resolved (cid : string) (e : env) :
  mounts (WebSocketProviderWrapper children cid 1 e) = true
  <-> exists u, v1ConversationUrl e cid = JS.Str u.
Proof.
  unfold WebSocketProviderWrapper. cbn [JS.is_number Z.eqb].
  destruct (v1ConversationUrl e cid) as [| |u]; cbn [mounts].
  - split; [discriminate | intros [u H]; discriminate].
  - split; [discriminate | intros [u H]; discriminate].
  - split; [intros _; now exists u | reflexivity].
Qed.

(** C3.  A version value other than the numbers 0 and 1, another integer
    or any other value, makes the component throw, and no provider is
    mounted.  What is thrown is the [Error] whose message names the
    version as the template literal prints it; for a value that cannot be
    converted to a string it is the exception of that conversion. *)
Theorem unsupported_version_throws
        (cid : string) (version : JS.untyped) (e : env) :
  version <> JS.Int 0 -> version <> JS.Int 1 ->
  (exists ex,
      WebSocketProviderWrapper children cid version e = Thrown ex
      /\ (forall z,
             version = JS.Int z -> (Z.abs z < 2 ^ 53)%Z ->
             ex = JS.Error ("Unsupported WebSocket provider version: "
                              ++ JS.show_number z
                              ++ ". Supported versions are 0 and 1."))
      /\ (forall text,
             version = JS.Other (inl text) ->
             ex = JS.Error ("Unsupported WebSocket provider version: "
                              ++ text
                              ++ ". Supported versions are 0 and 1."))
      /\ (forall ex', version = JS.Other (inr ex') -> ex = ex'))
  /\ mounts (WebSocketProviderWrapper children cid version e) = false.
Proof.
  intros N0 N1. unfold WebSocketProviderWrapper.
  destruct version as [z|[text|ex']]; cbn [JS.is_number JS.interpolate].
  - assert (Z0 : (z =? 0)%Z = false)
      by (apply Z.eqb_neq; intros ->; now elim N0).
    assert (Z1 : (z =? 1)%Z = false)
      by (apply Z.eqb_neq; intros ->; now elim N1).
    rewrite Z0, Z1. split; [|reflexivity]. eexists.
    split; [reflexivity|]. split; [|split].
    + now intros z' [= <-] _.
    + intros text H. discriminate H.
    + intros ex' H. discriminate H.
  - split; [|reflexivity]. eexists.
    split; [reflexivity|]. split; [|split].
    + intros z H. discriminate H.
    + now intros text' [= <-].
    + intros ex' H. discriminate H.
  - split; [|reflexivity]. exists ex'.
    split; [reflexivity|]. split; [|split].
    + intros z H. discriminate H.
    + intros text H. discriminate H.
    + now intros ex'' [= <-].
Qed.

(** C7, at the inputs where the code departs from it.  For version 1,
    while nothing is loaded yet, and also for a loaded conversation
    whose sub-conversation and which itself have a null URL, computing
    the URL to use throws a [TypeError]. *)
Theorem v1_without_url_throws_type_error (cid : string) :
  WebSocketProviderWrapper children cid 1 Examples.nothing_loaded
  = Thrown JS.TypeError
  /\ WebSocketProviderWrapper children "c0ffee" 1
                              Examples.loaded_without_url
     = Thrown JS.TypeError.
Proof. split; reflexivity. Qed.

(** C8.  For version 1 and a resolved conversation URL, the URL handed
    to the mounted provider is the resolved URL in which the first
    occurrence of "localhost" is replaced by "sheepintry.com"; a URL
    without "localhost" is handed over as it is. *)
Theorem v1_url_replaces_first_localhost
        (cid : string) (e : env) (u : string) :
  v1ConversationUrl e cid = JS.Str u ->
  exists url,
    mountedUrl (WebSocketProviderWrapper children cid 1 e) = Some url
    /\ (forall pre post,
           u = pre ++ "localhost" ++ post ->
           (forall m, m < String.length pre ->
                      ~ occurs_at "localhost" u m) ->
           url = pre ++ "sheepintry.com" ++ post)
    /\ (~ contains "localhost" u -> url = u).
Proof.
  intros U. exists (JS.replace "localhost" "sheepintry.com" u).
  split; [|split].
  - unfold WebSocketProviderWrapper. cbn [JS.is_number Z.eqb]. now rewrite U.
  - intros pre post -> Hmin. now apply replace_first.
  - apply replace_absent.
Qed.

End Selector.

End TransportFacts.

(* ================================================================= *)
(** ** The theorems at sample inputs *)

Module Samples.

Import React Query TaskPolling Spec Examples.

(** Polling a working task goes on; polling the ready task stops. *)
Lemma polling_schedule_sample :
  refetchInterval (Obj 5 working_task) = Every 3000
  /\ refetchInterval (Obj 5 ready_task) = NoRefetch.
Proof.
  split.
  - apply (proj2 (PollerFacts.polling_stops_exactly_at_terminal_status
                    (answering working_task) JS.Null 5 working_task)).
    intros [H|H]; discriminate H.
  - apply (proj1 (PollerFacts.polling_stops_exactly_at_terminal_status
                    (answering ready_task) JS.Null 5 ready_task)).
    left. reflexivity.
Defined.

(** The ready task shown three times in a row navigates once. *)
Lemma navigation_once_sample :
  let e := render_showing (Obj 5 ready_task) in
  navigations (renders (answering ready_task) unmounted [e; e; e])
  = [Navigate "/conversations/c0ffee" true].
Proof.
  intros e.
  apply (proj2 (EffectFacts.navigation_fires_exactly_once
                  (answering ready_task) e unmounted)
               5 ready_task "c0ffee" [e; e]).
  - reflexivity.
  - split; [reflexivity | split; [reflexivity | discriminate]].
  - exact I.
  - repeat constructor.
Defined.

(** Version 2 is refused. *)
Lemma unsupported_version_sample :
  (exists ex,
      Transport.WebSocketProviderWrapper tt "c0ffee" 2 nothing_loaded
      = Transport.Thrown ex
      /\ (forall z,
             JS.Int 2 = JS.Int z -> (Z.abs z < 2 ^ 53)%Z ->
             ex = JS.Error ("Unsupported WebSocket provider version: "
                              ++ JS.show_number z
                              ++ ". Supported versions are 0 and 1."))
      /\ (forall text,
             JS.Int 2 = JS.Other (inl text) ->
             ex = JS.Error ("Unsupported WebSocket provider version: "
                              ++ text
                              ++ ". Supported versions are 0 and 1."))
      /\ (forall ex', JS.Int 2 = JS.Other (inr ex') -> ex = ex'))
  /\ Transport.mounts
       (Transport.WebSocketProviderWrapper tt "c0ffee" 2 nothing_loaded)
     = false.
Proof.
  apply (TransportFacts.unsupported_version_throws
           unit tt "c0ffee" (JS.Int 2) nothing_loaded); discriminate.
Defined.

(** The identifier of a task whose own identifier contains the marker. *)
Lemma task_id_sample :
  taskId (returned_by (answering ready_task)
                      (render_at "task-ab-task-cd" NoData) unmounted)
  = JS.Str "ab-task-cd".
Proof.
  apply (proj1 (PollerFacts.task_id_is_remainder_after_marker
                  (answering ready_task)
                  (render_at "task-ab-task-cd" NoData) unmounted)
               "ab-task-cd").
  reflexivity.
Defined.

(** A failing poll endpoint: one call, and the error is returned. *)
Lemma fetch_failure_sample :
  let g := failing_once "503" ready_task in
  let o := taskQueryOptions g (JS.Str "7f3a") in
  retry o = RetryBool false
  /\ taskError (returned_by g render_fetching unmounted)
     = r_error (useQuery render_fetching o)
  /\ exists res,
      settle 8 7 o = Some (1, res)
      /\ r_error res = Some "503"
      /\ (useQuery render_fetching o = res ->
          taskError (returned_by g render_fetching unmounted) = Some "503").
Proof.
  apply (EffectFacts.fetch_failure_is_surfaced_not_retried
           (failing_once "503" ready_task) render_fetching unmounted
           "7f3a" "503" 7 7).
  - reflexivity.
  - discriminate.
  - reflexivity.
Defined.

(** C2 as the specification has it fails when a dependency of the effect
    changes while the task stays ready.  After the one transition from a
    working to a ready task, a render that is handed another [navigate]
    function navigates a second time although the polled object is the
    same, and so does a render that shows the ready task as a new object. *)
Lemma navigation_repeats_after_one_transition :
  let g := answering ready_task in
  let go := Navigate "/conversations/c0ffee" true in
  navigations
    (renders g unmounted
             [ render_showing (Obj 4 working_task);
               render_showing (Obj 5 ready_task);
               MoreExamples.render_with 9 2 (Obj 5 ready_task) ])
  = [go; go]
  /\ navigations
       (renders g unmounted
                [ render_showing (Obj 4 working_task);
                  render_showing (Obj 5 ready_task);
                  render_showing (Obj 6 ready_task) ])
     = [go; go].
Proof. split; reflexivity. Qed.

(** C6 as the specification has it fails in two ways.  For the ready task
    without an agent server URL the navigation fires and the cache is not
    written.  And for the ready task with one, a render that is handed
    another query client writes the cache a second time, the polled object
    being the same, while the navigation has fired once. *)
Lemma navigation_without_cache_write :
  let fx := effects_of (answering ready_task_without_url)
                       (render_showing (Obj 5 ready_task_without_url))
                       unmounted in
  let log := renders (answering ready_task) unmounted
                     [ render_showing (Obj 5 ready_task);
                       MoreExamples.render_with 1 8 (Obj 5 ready_task) ] in
  fx = [Navigate "/conversations/c0ffee" true]
  /\ ~ (cache_writes [fx] <> [] <-> navigations [fx] <> [])
  /\ List.length (cache_writes log) = 2
  /\ List.length (navigations log) = 1.
Proof.
  split; [reflexivity|]. split; [|split; reflexivity].
  intros [_ H]. apply H; [discriminate | reflexivity].
Qed.

(** The ready task with an agent server URL: one write, one navigation. *)
Lemma cache_write_sample :
  let g := answering ready_task in
  let e := render_showing (Obj 5 ready_task) in
  let log := renders g unmounted [e; e] in
  concat log = effects_of g e unmounted
  /\ List.length (cache_writes log) <= 1
  /\ List.length (navigations log) <= 1
  /\ (cache_writes log <> []
      <-> navigations log <> []
          /\ exists at_ t,
              polled g e = Obj at_ t
              /\ is_present (StartTask.agent_server_url t)).
Proof.
  intros g e.
  apply (EffectFacts.cache_write_needs_navigation_and_url g e unmounted [e]).
  - exact I.
  - exact I.
  - repeat constructor.
Defined.

(** The local URL of the sub-conversation, with the host substituted. *)
Lemma v1_url_sample :
  exists url,
    Transport.mountedUrl
      (Transport.WebSocketProviderWrapper tt "c0ffee" 1 loaded_local)
    = Some url
    /\ (forall pre post,
           "http://localhost:8000/localhost" = pre ++ "localhost" ++ post ->
           (forall m, m < String.length pre ->
                      ~ occurs_at "localhost"
                          "http://localhost:8000/localhost" m) ->
           url = pre ++ "sheepintry.com" ++ post)
    /\ (~ contains "localhost" "http://localhost:8000/localhost" ->
        url = "http://localhost:8000/localhost").
Proof.
  apply (TransportFacts.v1_url_replaces_first_localhost
           unit tt "c0ffee" loaded_local "http://localhost:8000/localhost").
  reflexivity.
Defined.

(** The route [/conversations/c0ffee] is a conversation, not a task. *)
Lemma conversation_route_sample :
  let r := returned_by (answering ready_task)
                       (render_at "c0ffee" NoData) unmounted in
  taskId r = JS.Null /\ conversationId r = JS.Str "c0ffee".
Proof.
  intros r.
  apply (proj1 (proj2 (PollerFacts.task_id_xor_conversation_id
                         (answering ready_task)
                         (render_at "c0ffee" NoData) unmounted))).
  intros [rest E]. discriminate E.
Defined.

(** The record written for the ready task. *)
Lemma precache_record_sample :
  exists at_ t,
    polled (answering ready_task) (render_showing (Obj 5 ready_task))
    = Obj at_ t
    /\ AppConversation.session_api_key ready_record = JS.Null
    /\ AppConversation.id ready_record = StartTask.app_conversation_id t
    /\ AppConversation.conversation_url ready_record
       = StartTask.agent_server_url t
    /\ AppConversation.sandbox_id ready_record = StartTask.sandbox_id t
    /\ is_present (StartTask.agent_server_url t).
Proof.
  apply (proj1 (EffectFacts.precache_record_fields
                  (answering ready_task)
                  (render_showing (Obj 5 ready_task)) unmounted)
               [ KStr "v1"; KStr "sub-conversations";
                 KArray [JS.Str "c0ffee"] ]
               [ ready_record ] ready_record).
  - left. reflexivity.
  - left. reflexivity.
Defined.

End Samples.


(* ================================================================= *)
(** ** The task query: when it runs and what it asks for *)

Module QueryFacts.

Import React Query TaskPolling Spec StringFacts PollerFacts HookFacts.

Section TaskQuery.

Variable getStartTask : string -> nat -> settled StartTask.t.

Local Abbreviation options_at param :=
  (taskQueryOptions getStartTask (extractTaskId param)).

(** The task query is enabled exactly for a route parameter that carries
    the marker followed by a non-empty identifier; for the bare marker the
    hook reports a task with an empty identifier and never fetches it. *)
Theorem task_query_enabled_iff (param : string) :
  (enabled (options_at param) = true
   <-> exists rest, param = task_marker ++ rest /\ rest <> "")
  /\ (param = task_marker ->
      enabled (options_at param) = false
      /\ forall e s,
          useConversationId e = param ->
          isTask (returned_by getStartTask e s) = true
          /\ taskId (returned_by getStartTask e s) = JS.Str ""
          /\ conversationId (returned_by getStartTask e s) = JS.Null).
Proof.
  split.
  - cbn [enabled taskQueryOptions]. rewrite truthy_is_present. split.
    + intros (i & E & N). unfold extractTaskId in E.
      destruct (JS.startsWith param "task-") eqn:P; [|discriminate].
      apply startsWith_marker in P. destruct P as [rest ->].
      change "task-" with task_marker in E.
      rewrite replace_prefix in E. injection E as <-. now exists rest.
    + intros (rest & -> & N). exists rest.
      now rewrite extractTaskId_marker.
  - intros ->. split; [reflexivity|]. intros e s E.
    unfold returned_by, useTaskPolling. rewrite !useEffect_runs, E.
    now cbn.
Qed.

(** For a route parameter with the marker and a non-empty identifier, each
    call of the query function is the call of the poll endpoint for that
    identifier: its task is the data, its failure is the failure.  For any
    other parameter the query function answers null. *)
Theorem task_query_asks_for_the_identifier (param : string) (call : nat) :
  (forall rest,
      param = task_marker ++ rest -> rest <> "" ->
      queryFn (options_at param) call
      = match getStartTask rest call with
        | Resolved t => Resolved (Some t)
        | Rejected err => Rejected err
        end)
  /\ (enabled (options_at param) = false ->
      queryFn (options_at param) call = Resolved None).
Proof.
  split.
  - intros rest -> N. rewrite extractTaskId_marker.
    cbn [queryFn taskQueryOptions]. unfold taskQueryFn.
    assert (P : JS.truthy (JS.Str rest) = true)
      by (apply truthy_is_present; now exists rest).
    now rewrite P.
  - cbn [enabled queryFn taskQueryOptions]. unfold taskQueryFn.
    now intros ->.
Qed.

(** One fetch of the task query always settles, with at most one call of
    the poll endpoint and with none exactly when the query is disabled; the
    task of a successful call becomes the data, the failure of a failed
    call becomes the error. *)
Theorem task_fetch_settles_in_one_call
        (param : string) (fuel : nat) (at_ : ref) :
  exists calls res,
    settle (S fuel) at_ (options_at param) = Some (calls, res)
    /\ calls <= 1
    /\ (calls = 0 <-> enabled (options_at param) = false)
    /\ (enabled (options_at param) = false ->
        r_data res = NoData /\ r_error res = None)
    /\ (forall rest,
           param = task_marker ++ rest -> rest <> "" ->
           match getStartTask rest 0 with
           | Resolved t => r_data res = Obj at_ t /\ r_error res = None
           | Rejected err => r_data res = NoData /\ r_error res = Some err
           end).
Proof.
  destruct (enabled (options_at param)) eqn:En.
  - pose proof (proj1 (proj1 (task_query_enabled_iff param)) En)
      as (rest & -> & N).
    pose proof (proj1 (task_query_asks_for_the_identifier
                         (task_marker ++ rest) 0) rest eq_refl N) as Q.
    unfold settle. rewrite En. cbn [fetch].
    cbn [retry taskQueryOptions shouldRetry]. rewrite Q.
    destruct (getStartTask rest 0) as [t|err] eqn:G.
    + exists 1, {| r_data := Obj at_ t; r_error := None;
                   r_isLoading := false |}.
      split; [reflexivity|]. split; [lia|].
      split; [split; discriminate|]. split; [discriminate|].
      intros rest' E _. apply append_split_eq in E as [_ <-];
        [| reflexivity]. rewrite G. now split.
    + exists 1, {| r_data := NoData; r_error := Some err;
                   r_isLoading := false |}.
      split; [reflexivity|]. split; [lia|].
      split; [split; discriminate|]. split; [discriminate|].
      intros rest' E _. apply append_split_eq in E as [_ <-];
        [| reflexivity]. rewrite G. now split.
  - exists 0, {| r_data := NoData; r_error := None; r_isLoading := false |}.
    unfold settle. rewrite En.
    split; [reflexivity|]. split; [lia|].
    split; [split; reflexivity|]. split; [now split|].
    intros rest -> N.
    assert (En' : enabled (options_at (task_marker ++ rest)) = true)
      by (apply task_query_enabled_iff; now exists rest).
    congruence.
Qed.

(** The poll schedule asks for another poll only for data that is a task
    in a status other than "READY" and "ERROR", and then after 3000 ms;
    while there is no data it asks for none. *)
Theorem poll_interval_characterised (d : data StartTask.t) (ms : Z) :
  refetchInterval d = Every ms
  <-> ms = 3000%Z
      /\ exists at_ t,
          d = Obj at_ t
          /\ StartTask.status t <> "READY"
          /\ StartTask.status t <> "ERROR".
Proof.
  unfold refetchInterval. destruct d as [| |at_ t]; cbn [present].
  - split; [discriminate | intros (_ & a & t & H & _); discriminate].
  - split; [discriminate | intros (_ & a & t & H & _); discriminate].
  - destruct (String.eqb_spec (StartTask.status t) "READY") as [R|R];
      [|destruct (String.eqb_spec (StartTask.status t) "ERROR") as [E|E]];
      cbn [orb].
    + split; [discriminate|].
      intros (_ & a & t' & [= _ <-] & NR & _). now elim NR.
    + split; [discriminate|].
      intros (_ & a & t' & [= _ <-] & _ & NE). now elim NE.
    + split.
      * intros [= <-]. split; [reflexivity | now exists at_, t].
      * now intros (-> & _).
Qed.

End TaskQuery.

End QueryFacts.

(* ================================================================= *)
(** ** The task poller: what a render does and does not do *)

Module RenderFacts.

Import React Query TaskPolling Spec HookFacts EffectFacts.

Section Render.

Variable getStartTask : string -> nat -> settled StartTask.t.

Local Abbreviation polled := (polled getStartTask).
Local Abbreviation effects_of := (effects_of getStartTask).
Local Abbreviation slots_of := (slots_of getStartTask).
Local Abbreviation returned_by := (returned_by getStartTask).

Lemma render_view (e : env) (s : slots) :
  task (returned_by e s) = polled e
  /\ taskStatus (returned_by e s)
     = JS.chain (present (polled e)) (fun t => JS.Str (StartTask.status t))
  /\ taskDetail (returned_by e s)
     = JS.chain (present (polled e)) StartTask.detail.
Proof.
  unfold returned_by, TaskPolling.returned_by, useTaskPolling.
  rewrite !useEffect_runs. now cbn.
Qed.

(** Whatever effect a render runs, the polled data is a task in status
    "READY", for which the poll schedule asks for no further poll: the
    cache is never written and the route never changed while polling is
    still going on. *)
Theorem effects_only_after_polling_stopped
        (e : env) (s : slots) (x : effect) :
  In x (effects_of e s) ->
  exists at_ t,
    polled e = Obj at_ t
    /\ StartTask.status t = "READY"
    /\ refetchInterval (polled e) = NoRefetch.
Proof.
  intros H. apply effects_from_bodies in H.
  assert (R : exists at_ t,
             polled e = Obj at_ t /\ StartTask.status t = "READY").
  { destruct H as [H|H].
    - apply precache_inv in H. destruct H as (a & t & D & R & _).
      now exists a, t.
    - apply navigation_inv in H.
      destruct H as (a & t & cid & D & (R & _) & _). now exists a, t. }
  destruct R as (a & t & D & R). exists a, t.
  split; [exact D|]. split; [exact R|].
  rewrite D. unfold refetchInterval. cbn [present]. now rewrite R.
Qed.

(** A task in status "ERROR" ends the polling without any effect: nothing
    is cached, nothing is navigated to, and the status and the detail of
    the task are what the hook returns for the UI. *)
Theorem error_task_stops_quietly
        (e : env) (s : slots) (at_ : ref) (t : StartTask.t) :
  polled e = Obj at_ t ->
  StartTask.status t = "ERROR" ->
  refetchInterval (polled e) = NoRefetch
  /\ effects_of e s = []
  /\ taskStatus (returned_by e s) = JS.Str "ERROR"
  /\ taskDetail (returned_by e s) = StartTask.detail t.
Proof.
  intros D E. destruct (render_view e s) as (_ & St & De).
  rewrite St, De, D. cbn [present JS.chain]. rewrite E.
  split; [|split; [|now split]].
  - unfold refetchInterval. cbn [present]. now rewrite E.
  - destruct (effects_of e s) as [|x fx] eqn:F; [reflexivity|].
    destruct (effects_only_after_polling_stopped e s x) as (a & t' & D' & R & _).
    + rewrite F. now left.
    + rewrite D in D'. injection D' as _ <-. rewrite E in R. discriminate R.
Qed.

(** The effects of a render are at most one cache write followed by at
    most one navigation: when both run, the cache is written first. *)
Theorem cache_write_precedes_navigation (e : env) (s : slots) :
  effects_of e s
  = (cache_writes [effects_of e s] ++ navigations [effects_of e s])%list
  /\ List.length (cache_writes [effects_of e s]) <= 1
  /\ List.length (navigations [effects_of e s]) <= 1.
Proof.
  unfold cache_writes, navigations. cbn [concat]. rewrite !app_nil_r.
  rewrite render_effects, !filter_app, !useEffect_runs. cbn [fst].
  set (w := match precache_slot s with
            | Some old => if same_deps old _ then [] else _
            | None => _
            end).
  set (n := match navigate_slot s with
            | Some old => if same_deps old _ then [] else _
            | None => _
            end).
  assert (W : filter isSetQueryData w = w /\ filter isNavigate w = []
              /\ List.length w <= 1).
  { unfold w. destruct (precache_slot s) as [old|];
      [destruct (same_deps old _); [cbn; repeat split; lia|]|];
      (split; [apply precache_only_writes|];
       split; [apply precache_only_writes | apply precache_at_most_one]). }
  assert (N : filter isNavigate n = n /\ filter isSetQueryData n = []
              /\ List.length n <= 1).
  { unfold n. destruct (navigate_slot s) as [old|];
      [destruct (same_deps old _); [cbn; repeat split; lia|]|];
      (split; [apply navigation_only_navigates|];
       split; [apply navigation_only_navigates
              | apply navigation_at_most_one]). }
  destruct W as (W1 & W2 & W3). destruct N as (N1 & N2 & N3).
  rewrite W1, W2, N1, N2, app_nil_r. cbn [app]. now repeat split.
Qed.

(** The navigation depends on the identity of the [navigate] function: a
    render that is handed another [navigate] than the one before navigates
    again for a ready task, even when the polled object is the same. *)
Theorem navigation_repeats_when_navigate_changes
        (e : env) (s : slots) (d : data StartTask.t) (n : ref)
        (at_ : ref) (t : StartTask.t) (cid : string) :
  navigate_slot s = Some (d, n) ->
  n <> useNavigate e ->
  polled e = Obj at_ t ->
  ready_with_conversation t cid ->
  navigations [effects_of e s] = [Navigate ("/conversations/" ++ cid) true].
Proof.
  intros Hs Hn D R. unfold navigations. cbn [concat].
  rewrite app_nil_r, render_effects, filter_app, Hs, !useEffect_runs.
  cbn [fst]. unfold same_deps at 2. cbn [fst snd].
  assert (F : same_ref n (useNavigate e) = false)
    by (now apply Nat.eqb_neq).
  rewrite F, andb_false_r, D, (navigation_ready _ _ _ R).
  cbn [filter isNavigate].
  destruct (precache_slot s) as [old|];
    [destruct (same_deps old _); [reflexivity|]|];
    now rewrite (proj1 (precache_only_writes _)).
Qed.

(** Rendering again with the same hook results runs no effect and leaves
    the remembered dependencies as they are. *)
Theorem rerender_is_quiet (e : env) (s : slots) :
  effects_of e (slots_of e s) = []
  /\ slots_of e (slots_of e s) = slots_of e s.
Proof.
  split.
  - rewrite render_effects, render_slots. cbn [precache_slot navigate_slot].
    now rewrite !kept_effect_is_quiet by apply same_data_refl.
  - now rewrite !render_slots.
Qed.

(** While the task query has no data, the hook returns [undefined] for the
    status, the detail and the repository of the task, runs no effect and
    asks for no poll. *)
Theorem nothing_without_data (e : env) (s : slots) :
  present (polled e) = None ->
  taskStatus (returned_by e s) = JS.Undefined
  /\ taskDetail (returned_by e s) = JS.Undefined
  /\ repositoryInfo (returned_by e s)
     = {| selectedRepository := JS.Undefined;
          selectedBranch := JS.Undefined;
          gitProvider := JS.Undefined |}
  /\ effects_of e s = []
  /\ refetchInterval (polled e) = NoRefetch.
Proof.
  intros P. destruct (render_view e s) as (_ & St & De).
  rewrite St, De, P. split; [reflexivity|]. split; [reflexivity|].
  split; [|split].
  - unfold returned_by, TaskPolling.returned_by, useTaskPolling.
    rewrite !useEffect_runs. cbn. fold (polled e). now rewrite P.
  - destruct (effects_of e s) as [|x fx] eqn:F; [reflexivity|].
    destruct (effects_only_after_polling_stopped e s x) as (a & t & D & _).
    + rewrite F. now left.
    + rewrite D in P. discriminate P.
  - unfold refetchInterval. now rewrite P.
Qed.

End Render.

End RenderFacts.

(* ================================================================= *)
(** ** The transport selector: what is looked up and what is mounted *)

Module SelectorFacts.

Import Transport Reading Spec StringFacts HookFacts.

Lemma strict_eq_true (v : JS.value) (s : string) :
  JS.strict_eq v s = true <-> v = JS.Str s.
Proof.
  destruct v as [| |s']; simpl.
  - split; discriminate.
  - split; discriminate.
  - rewrite String.eqb_eq. split; [now intros -> | now intros [= ->]].
Qed.

Lemma in_dropNull {A : Type} (l : list (option A)) (a : A) :
  In a (dropNull l) <-> In (Some a) l.
Proof.
  induction l as [|[b|] l IH]; simpl.
  - reflexivity.
  - rewrite IH. split; (intros [H|H]; [left | now right]).
    + now rewrite H.
    + now injection H.
  - rewrite IH. split; [now right | intros [H|H]; [discriminate | exact H]].
Qed.

Lemma dropNull_app {A : Type} (l l' : list (option A)) :
  dropNull (l ++ l') = (dropNull l ++ dropNull l')%list.
Proof.
  induction l as [|[b|] l IH]; simpl; [reflexivity | now rewrite IH | exact IH].
Qed.

Lemma find_none_all {A : Type} (f : A -> bool) (l : list A) :
  find f l = None <-> forall x, In x l -> f x = false.
Proof.
  split; [apply find_none|].
  induction l as [|a l IH]; simpl; intros H; [reflexivity|].
  rewrite (H a (or_introl eq_refl)). apply IH. intros x Hx. apply H.
  now right.
Qed.

Lemma mounted_v1 {ReactNode : Type} (children : ReactNode)
      (cid : string) (e : env) (u : string) :
  v1ConversationUrl e cid = JS.Str u ->
  WebSocketProviderWrapper children cid 1 e
  = Rendered
      (ConversationWebSocketProvider
         {| conversationId := cid;
            conversationUrl := JS.replace "localhost" "sheepintry.com" u;
            sessionApiKey := v1SessionApiKey e cid;
            subConversationIds := subIds e;
            subConversations := filteredSubConversations e |}
         children).
Proof.
  intros U. unfold WebSocketProviderWrapper. cbn [JS.is_number Z.eqb]. now rewrite U.
Qed.

Section Selector.

Variable ReactNode : Type.
Variable children : ReactNode.


(** The sub-conversation used for version 1 is the first fetched one that
    is not null and whose identifier is the conversation identifier; there
    is none exactly when nothing is fetched or no fetched sub-conversation
    has that identifier. *)
Theorem first_matching_sub_conversation (cid : string) (e : env) :
  (forall before conv after,
      fetchedSubConversations e = Some (before ++ Some conv :: after)%list ->
      AppConversation.id conv = JS.Str cid ->
      (forall c, In (Some c) before -> AppConversation.id c <> JS.Str cid) ->
      v1AppConversation e cid = Some conv)
  /\ (forall conv,
         v1AppConversation e cid = Some conv ->
         AppConversation.id conv = JS.Str cid
         /\ exists l, fetchedSubConversations e = Some l /\ In (Some conv) l)
  /\ (v1AppConversation e cid = None
      <-> forall l c,
          fetchedSubConversations e = Some l -> In (Some c) l ->
          AppConversation.id c <> JS.Str cid).
Proof.
  unfold v1AppConversation, filteredSubConversations, findConversation.
  fold (fetchedSubConversations e).
  destruct (fetchedSubConversations e) as [l|]; cbn [option_map].
  - split; [|split].
    + intros before conv after [= ->] I M.
      rewrite dropNull_app. cbn [dropNull].
      assert (F : find (fun c => JS.strict_eq (AppConversation.id c) cid)
                       (dropNull before) = None).
      { apply find_none_all. intros c H. apply in_dropNull in H.
        destruct (JS.strict_eq (AppConversation.id c) cid) eqn:S;
          [|reflexivity].
        apply strict_eq_true in S. now elim (M c H). }
      clear M. induction (dropNull before) as [|b bs IH].
      * cbn. now rewrite (proj2 (strict_eq_true _ _) I).
      * cbn in F |- *.
        destruct (JS.strict_eq (AppConversation.id b) cid);
          [discriminate | now apply IH].
    + intros conv H. apply find_some in H. destruct H as [H S].
      apply strict_eq_true in S. apply in_dropNull in H.
      split; [exact S | now exists l].
    + rewrite find_none_all. split.
      * intros H l' c [= <-] Hc S. apply in_dropNull in Hc.
        specialize (H c Hc). apply strict_eq_true in S. congruence.
      * intros H c Hc. apply in_dropNull in Hc.
        destruct (JS.strict_eq (AppConversation.id c) cid) eqn:S;
          [|reflexivity].
        apply strict_eq_true in S. now elim (H l c eq_refl Hc).
  - split; [|split].
    + intros before conv after H. discriminate H.
    + intros conv H. discriminate H.
    + split; [intros _ l c H; discriminate H | reflexivity].
Qed.

(** The connection URL of the matching sub-conversation wins over the URL
    of the conversation whenever it is a non-empty string; otherwise (no
    matching sub-conversation, or one whose URL is null or empty) the URL
    of the conversation is the one resolved. *)
Theorem sub_conversation_url_has_priority (cid : string) (e : env) :
  (forall conv u,
      v1AppConversation e cid = Some conv ->
      AppConversation.conversation_url conv = JS.Str u -> u <> "" ->
      mountedUrl (WebSocketProviderWrapper children cid 1 e)
      = Some (JS.replace "localhost" "sheepintry.com" u))
  /\ ((forall conv,
          v1AppConversation e cid = Some conv ->
          ~ is_present (AppConversation.conversation_url conv)) ->
      v1ConversationUrl e cid
      = JS.chain (useActiveConversation e) Conversation.url).
Proof.
  split.
  - intros conv u V U N.
    assert (R : v1ConversationUrl e cid = JS.Str u).
    { unfold v1ConversationUrl. rewrite V. cbn [JS.chain]. rewrite U.
      unfold JS.or.
      assert (P : JS.truthy (JS.Str u) = true)
        by (apply truthy_is_present; now exists u).
      now rewrite P. }
    now rewrite (mounted_v1 children cid e u R).
  - intros H. unfold v1ConversationUrl, JS.or.
    destruct (v1AppConversation e cid) as [conv|]; [|reflexivity].
    cbn [JS.chain].
    destruct (JS.truthy (AppConversation.conversation_url conv)) eqn:T;
      [|reflexivity].
    apply truthy_is_present in T. now elim (H conv eq_refl).
Qed.

(** What the mounted V1 provider is handed besides the URL: the
    conversation identifier and the children unchanged, the identifiers of
    the sub-conversations as the conversation lists them, and the fetched
    sub-conversations without the null ones, in their order. *)
Theorem v1_props_pass_through (cid : string) (e : env) (u : string) :
  v1ConversationUrl e cid = JS.Str u ->
  exists props,
    mountedProps (WebSocketProviderWrapper children cid 1 e) = Some props
    /\ mountedChildren (WebSocketProviderWrapper children cid 1 e)
       = Some children
    /\ conversationId props = cid
    /\ subConversationIds props = subIds e
    /\ option_map (map Some) (subConversations props)
       = option_map (filter notNull) (fetchedSubConversations e).
Proof.
  intros U. rewrite (mounted_v1 children cid e u U).
  eexists. split; [reflexivity|]. split; [reflexivity|].
  split; [reflexivity|]. split; [reflexivity|].
  cbn [subConversations]. unfold filteredSubConversations.
  fold (fetchedSubConversations e).
  destruct (fetchedSubConversations e) as [l|]; [|reflexivity].
  cbn [option_map]. f_equal.
  induction l as [|[a|] l IH]; cbn; [reflexivity | now rewrite IH | exact IH].
Qed.

End Selector.

Section Handover.

Import React Query TaskPolling.

Variable ReactNode : Type.
Variable children : ReactNode.
Variable getStartTask : string -> nat -> settled StartTask.t.

(** From the poller to the selector.  When the sub-conversation query of
    the selector shows the records that a render of the poller wrote into
    the cache, the V1 provider for the conversation of the task is mounted
    with the agent server URL of the task, host substituted, whatever URL
    the conversation itself has; the session key, which the written record
    leaves null, is the one of the conversation. *)
Theorem cached_record_feeds_the_provider
        (e : TaskPolling.env) (s : slots)
        (key : query_key) (records : list AppConversation.t)
        (conversation : option Conversation.t) :
  In (SetQueryData key records) (effects_of getStartTask e s) ->
  exists at_ t cid url props,
    polled getStartTask e = Obj at_ t
    /\ StartTask.app_conversation_id t = JS.Str cid
    /\ StartTask.agent_server_url t = JS.Str url
    /\ key = [ KStr "v1"; KStr "sub-conversations"; KArray [JS.Str cid] ]
    /\ mountedProps
         (WebSocketProviderWrapper children cid 1
                                   (reading_cache conversation records))
       = Some props
    /\ conversationUrl props = JS.replace "localhost" "sheepintry.com" url
    /\ sessionApiKey props
       = JS.chain conversation Conversation.session_api_key.
Proof.
  intros H. apply effects_from_bodies in H. destruct H as [H|H].
  - apply precache_inv in H.
    destruct H as (at_ & t & D & _ & (cid & I & NI) & (url & U & NU) & E).
    injection E as -> ->.
    exists at_, t, cid, url.
    assert (V : v1AppConversation
                  (reading_cache conversation
                     [ {| AppConversation.id := StartTask.app_conversation_id t;
                          AppConversation.conversation_url :=
                            StartTask.agent_server_url t;
                          AppConversation.session_api_key := JS.Null;
                          AppConversation.sandbox_id :=
                            StartTask.sandbox_id t |} ]) cid
                = Some {| AppConversation.id := StartTask.app_conversation_id t;
                          AppConversation.conversation_url :=
                            StartTask.agent_server_url t;
                          AppConversation.session_api_key := JS.Null;
                          AppConversation.sandbox_id :=
                            StartTask.sandbox_id t |}).
    { unfold v1AppConversation, filteredSubConversations, reading_cache.
      cbn. rewrite I. cbn. now rewrite String.eqb_refl. }
    assert (R : v1ConversationUrl
                  (reading_cache conversation
                     [ {| AppConversation.id := StartTask.app_conversation_id t;
                          AppConversation.conversation_url :=
                            StartTask.agent_server_url t;
                          AppConversation.session_api_key := JS.Null;
                          AppConversation.sandbox_id :=
                            StartTask.sandbox_id t |} ]) cid
                = JS.Str url).
    { unfold v1ConversationUrl. rewrite V. cbn [JS.chain
        AppConversation.conversation_url]. rewrite U. unfold JS.or.
      assert (P : JS.truthy (JS.Str url) = true)
        by (apply truthy_is_present; now exists url).
      now rewrite P. }
    rewrite (mounted_v1 children cid _ url R). eexists.
    split; [exact D|]. split; [exact I|]. split; [exact U|].
    split; [now rewrite I|]. split; [reflexivity|]. split; [reflexivity|].
    cbn [sessionApiKey]. unfold v1SessionApiKey. rewrite V. reflexivity.
  - apply navigation_inv in H. destruct H as (? & ? & ? & _ & _ & H).
    discriminate H.
Qed.

End Handover.

End SelectorFacts.

(* ================================================================= *)
(** ** The further theorems at sample inputs *)

Module MoreSamples.

Import React Query TaskPolling Spec Reading Examples MoreExamples.

(** The route [/conversations/task-7f3a] asks the endpoint for "7f3a". *)
Lemma task_query_sample :
  queryFn (taskQueryOptions (answering ready_task)
                            (extractTaskId "task-7f3a")) 0
  = match answering ready_task "7f3a" 0 with
    | Resolved t => Resolved (Some t)
    | Rejected err => Rejected err
    end.
Proof.
  apply (proj1 (QueryFacts.task_query_asks_for_the_identifier
                  (answering ready_task) "task-7f3a" 0) "7f3a").
  - reflexivity.
  - discriminate.
Defined.

(** The navigation of the ready task happens with the polling stopped. *)
Lemma effects_after_polling_sample :
  exists at_ t,
    polled (answering ready_task) (render_showing (Obj 5 ready_task))
    = Obj at_ t
    /\ StartTask.status t = "READY"
    /\ refetchInterval
         (polled (answering ready_task) (render_showing (Obj 5 ready_task)))
       = NoRefetch.
Proof.
  apply (RenderFacts.effects_only_after_polling_stopped
           (answering ready_task) (render_showing (Obj 5 ready_task))
           unmounted (Navigate "/conversations/c0ffee" true)).
  right. left. reflexivity.
Defined.

(** The failed task is shown and nothing else happens. *)
Lemma error_task_sample :
  let g := answering error_task in
  let e := render_showing (Obj 5 error_task) in
  refetchInterval (polled g e) = NoRefetch
  /\ effects_of g e unmounted = []
  /\ taskStatus (returned_by g e unmounted) = JS.Str "ERROR"
  /\ taskDetail (returned_by g e unmounted) = StartTask.detail error_task.
Proof.
  intros g e.
  apply (RenderFacts.error_task_stops_quietly g e unmounted 5 error_task);
    reflexivity.
Defined.

(** The same ready object, another [navigate]: the navigation repeats. *)
Lemma navigation_repeats_sample :
  navigations [ effects_of (answering ready_task)
                           (render_showing (Obj 5 ready_task))
                           rendered_with_other_navigate ]
  = [Navigate "/conversations/c0ffee" true].
Proof.
  apply (RenderFacts.navigation_repeats_when_navigate_changes
           (answering ready_task) (render_showing (Obj 5 ready_task))
           rendered_with_other_navigate (Obj 5 ready_task) 9
           5 ready_task "c0ffee").
  - reflexivity.
  - discriminate.
  - reflexivity.
  - split; [reflexivity | split; [reflexivity | discriminate]].
Defined.

(** The first render, before the task is fetched. *)
Lemma nothing_without_data_sample :
  let g := answering ready_task in
  let e := render_showing NoData in
  taskStatus (returned_by g e unmounted) = JS.Undefined
  /\ taskDetail (returned_by g e unmounted) = JS.Undefined
  /\ repositoryInfo (returned_by g e unmounted)
     = {| selectedRepository := JS.Undefined;
          selectedBranch := JS.Undefined;
          gitProvider := JS.Undefined |}
  /\ effects_of g e unmounted = []
  /\ refetchInterval (polled g e) = NoRefetch.
Proof.
  intros g e.
  apply (RenderFacts.nothing_without_data g e unmounted). reflexivity.
Defined.

(** The null entry is skipped and the sub-conversation "c0ffee" found. *)
Lemma first_matching_sample :
  Transport.v1AppConversation loaded_local "c0ffee" = Some local_record.
Proof.
  apply (proj1 (SelectorFacts.first_matching_sub_conversation
                  "c0ffee" loaded_local)
               [None] local_record []).
  - reflexivity.
  - reflexivity.
  - intros c [H|[]]. discriminate H.
Defined.

(** The URL of the sub-conversation is used, not the one of the
    conversation. *)
Lemma url_priority_sample :
  Transport.mountedUrl
    (Transport.WebSocketProviderWrapper tt "c0ffee" 1 loaded_local)
  = Some (JS.replace "localhost" "sheepintry.com"
                     "http://localhost:8000/localhost").
Proof.
  apply (proj1 (SelectorFacts.sub_conversation_url_has_priority
                  unit tt "c0ffee" loaded_local)
               local_record "http://localhost:8000/localhost").
  - reflexivity.
  - reflexivity.
  - discriminate.
Defined.

(** The props of the provider mounted for [loaded_local]. *)
Lemma v1_props_sample :
  exists props,
    mountedProps
      (Transport.WebSocketProviderWrapper tt "c0ffee" 1 loaded_local)
    = Some props
    /\ mountedChildren
         (Transport.WebSocketProviderWrapper tt "c0ffee" 1 loaded_local)
       = Some tt
    /\ Transport.conversationId props = "c0ffee"
    /\ Transport.subConversationIds props = Transport.subIds loaded_local
    /\ option_map (map Some) (Transport.subConversations props)
       = option_map (filter notNull) (fetchedSubConversations loaded_local).
Proof.
  apply (SelectorFacts.v1_props_pass_through
           unit tt "c0ffee" loaded_local "http://localhost:8000/localhost").
  reflexivity.
Defined.

(** The record cached for the ready task, read by the selector while the
    conversation itself is not loaded. *)
Lemma cached_record_sample :
  exists at_ t cid url props,
    polled (answering ready_task) (render_showing (Obj 5 ready_task))
    = Obj at_ t
    /\ StartTask.app_conversation_id t = JS.Str cid
    /\ StartTask.agent_server_url t = JS.Str url
    /\ [ KStr "v1"; KStr "sub-conversations"; KArray [JS.Str "c0ffee"] ]
       = [ KStr "v1"; KStr "sub-conversations"; KArray [JS.Str cid] ]
    /\ mountedProps
         (Transport.WebSocketProviderWrapper
            tt cid 1 (reading_cache None [ready_record]))
       = Some props
    /\ Transport.conversationUrl props
       = JS.replace "localhost" "sheepintry.com" url
    /\ Transport.sessionApiKey props
       = JS.chain (@None Conversation.t) Conversation.session_api_key.
Proof.
  apply (SelectorFacts.cached_record_feeds_the_provider
           unit tt (answering ready_task)
           (render_showing (Obj 5 ready_task)) unmounted
           [ KStr "v1"; KStr "sub-conversations"; KArray [JS.Str "c0ffee"] ]
           [ready_record] None).
  left. reflexivity.
Defined.

End MoreSamples.
